(** * History plugin for Sequelize models, and the array-transform snippet

    Shallow embedding of [src/unnamed/part_000] (the history plugin, lines
    1-192, and the [thisArg] variant of the array transform, lines 193-200)
    and of [src/index.js] (the array transform with [Function.prototype.bind]).

    JavaScript objects are association lists in key insertion order, arrays
    are lists, promises that resolve or reject are sums, and the database the
    plugin talks to is an explicit state.  lodash, joi and [util.format] are
    embedded with their documented behaviour on the values the plugin hands
    them.  The repository pins no lodash version: whether [_.map] takes a
    [thisArg] (lodash 3.x does, lodash 4.x does not) is a parameter. *)

From Stdlib Require Import ZArith Lia Bool Ascii String List DecimalString.
From stdpp Require Import base option list.
Import ListNotations.
Local Open Scope string_scope.
Local Open Scope Z_scope.

(** ** JavaScript values *)

Module Js.

(** The Sequelize data types the plugin names ([DataTypes.INTEGER], ...).
    They are classes or class instances: objects, but not plain objects. *)
Inductive datatype : Type :=
| INTEGER
| STRING
| DATE
| ARRAY (item : datatype)
| OTHER (name : string).

#[local] Unset Elimination Schemes.
Inductive value : Type :=
| VUndefined
| VNull
| VBool (b : bool)
| VNum (n : Z)
| VNaN
| VStr (s : string)
| VDate (t : Z)
| VType (t : datatype)
| VArr (items : list value)
| VObj (props : list (string * value)).
#[local] Set Elimination Schemes.

(** A plain object: its own enumerable properties in insertion order. *)
Definition obj : Type := list (string * value).

Section Assoc.
Context {A : Type}.

(** [o[key]] on own properties; [None] is a missing key. *)
Fixpoint get (o : list (string * A)) (key : string) : option A :=
  match o with
  | [] => None
  | (k, v) :: o' => if String.eqb k key then Some v else get o' key
  end.

(** [o[key] = v]: an existing key keeps its position, a new one goes last. *)
Fixpoint set (o : list (string * A)) (key : string) (v : A) : list (string * A) :=
  match o with
  | [] => [(key, v)]
  | (k, w) :: o' =>
      if String.eqb k key then (k, v) :: o' else (k, w) :: set o' key v
  end.

(** [Object.keys(o)] *)
Definition keys (o : list (string * A)) : list string := List.map fst o.

(** [key in o] *)
Definition has (o : list (string * A)) (key : string) : bool :=
  match get o key with Some _ => true | None => false end.
End Assoc.

(** The property names every plain object inherits from
    [Object.prototype]; each reads as a function or an object, which is
    truthy and has no property [type]. *)
Definition inherited : list string :=
  ["constructor"; "hasOwnProperty"; "isPrototypeOf"; "propertyIsEnumerable";
   "toLocaleString"; "toString"; "valueOf"; "__proto__";
   "__defineGetter__"; "__defineSetter__"; "__lookupGetter__";
   "__lookupSetter__"].

(** Reading a property: a missing key reads as [undefined]. *)
Definition prop (o : obj) (key : string) : value :=
  match get o key with Some v => v | None => VUndefined end.

(** [v.key] for an arbitrary value (used on values that are objects). *)
Definition member (v : value) (key : string) : value :=
  match v with VObj o => prop o key | _ => VUndefined end.

Fixpoint datatype_eqb (a b : datatype) : bool :=
  match a, b with
  | INTEGER, INTEGER | STRING, STRING | DATE, DATE => true
  | ARRAY x, ARRAY y => datatype_eqb x y
  | OTHER x, OTHER y => String.eqb x y
  | _, _ => false
  end.

(** Structural equality of values, used for SQL [=] on stored columns and
    for lodash's SameValueZero membership tests. *)
Fixpoint value_eqb (a b : value) {struct a} : bool :=
  match a, b with
  | VUndefined, VUndefined | VNull, VNull | VNaN, VNaN => true
  | VBool x, VBool y => Bool.eqb x y
  | VNum x, VNum y => Z.eqb x y
  | VStr x, VStr y => String.eqb x y
  | VDate x, VDate y => Z.eqb x y
  | VType x, VType y => datatype_eqb x y
  | VArr xs, VArr ys =>
      (fix items (xs ys : list value) {struct xs} : bool :=
         match xs, ys with
         | [], [] => true
         | x :: xs', y :: ys' => value_eqb x y && items xs' ys'
         | _, _ => false
         end) xs ys
  | VObj xs, VObj ys =>
      (fix props (xs ys : list (string * value)) {struct xs} : bool :=
         match xs, ys with
         | [], [] => true
         | (k, x) :: xs', (l, y) :: ys' =>
             String.eqb k l && value_eqb x y && props xs' ys'
         | _, _ => false
         end) xs ys
  | _, _ => false
  end.

(** The integers a double holds exactly; sums that stay among them are
    exact. *)
Definition safe (n : Z) : bool :=
  (- 9007199254740991 <=? n) && (n <=? 9007199254740991).

(** [ToNumber] of a primitive that is not a string: a number or [NaN];
    [None] is a value outside the embedding. *)
Definition to_number (v : value) : option value :=
  match v with
  | VUndefined | VNaN => Some VNaN
  | VNull => Some (VNum 0)
  | VBool b => Some (VNum (if b then 1 else 0))
  | VNum n => if safe n then Some (VNum n) else None
  | _ => None
  end.

(** [String(v)] of a primitive, as [+] applies it next to a string. *)
Definition string_of (v : value) : option string :=
  match v with
  | VUndefined => Some "undefined"
  | VNull => Some "null"
  | VBool true => Some "true"
  | VBool false => Some "false"
  | VNum n => if safe n then Some (NilZero.string_of_int (Z.to_int n)) else None
  | VNaN => Some "NaN"
  | VStr s => Some s
  | _ => None
  end.

(** [typeof v] is [string], [number] or [boolean]. *)
Definition primitive (v : value) : bool :=
  match v with VBool _ | VNum _ | VNaN | VStr _ => true | _ => false end.

(** [a === b] on values that are primitive or [null] or [undefined]
    ([NaN] is not equal to itself). *)
Definition strictEq (a b : value) : bool :=
  match a with VNaN => false | _ => value_eqb a b end.

(** [x + y] on primitives: a string operand concatenates, otherwise both
    sides are numbers and add, [NaN] as soon as one side is.  [None]:
    operands outside the embedding (objects, or integers a double does not
    hold exactly). *)
Definition js_add (x y : value) : option value :=
  match x, y with
  | VStr a, _ => option_map (fun s => VStr (a ++ s)) (string_of y)
  | _, VStr b => option_map (fun s => VStr (s ++ b)) (string_of x)
  | _, _ =>
      match to_number x, to_number y with
      | Some (VNum a), Some (VNum b) =>
          if safe (a + b) then Some (VNum (a + b)) else None
      | Some _, Some _ => Some VNaN
      | _, _ => None
      end
  end.

(** [String(v)] as [Array.prototype.join] applies it to an element. *)
Definition to_string (v : value) : string :=
  match v with
  | VUndefined | VNull => ""
  | VBool true => "true"
  | VBool false => "false"
  | VNum n => NilZero.string_of_int (Z.to_int n)
  | VNaN => "NaN"
  | VStr s => s
  | _ => "[object Object]"
  end.

(** [items.join(sep)] *)
Fixpoint join (items : list value) (sep : string) : string :=
  match items with
  | [] => ""
  | [v] => to_string v
  | v :: rest => to_string v ++ sep ++ join rest sep
  end.

(** A function value: its body, given [this] and the arguments; [None]
    when it leaves the embedding. *)
Definition jsfunction : Type := value -> list value -> option value.

(** All results, when there is one for each. *)
Fixpoint all {A : Type} (l : list (option A)) : option (list A) :=
  match l with
  | [] => Some []
  | Some a :: l' => option_map (cons a) (all l')
  | None :: _ => None
  end.

(** The global object, as far as the snippets read it: no property [b]. *)
Definition globalThis : value := VObj [].

(** [f.call(this, ...args)] for a non-strict function: a missing [this]
    is replaced by the global object. *)
Definition call (f : jsfunction) (this : value) (args : list value) : option value :=
  f (match this with VUndefined | VNull => globalThis | _ => this end) args.

(** [f.bind(thisArg)]: the call-site [this] is ignored from then on. *)
Definition bind (f : jsfunction) (thisArg : value) : jsfunction :=
  fun _ args => call f thisArg args.

End Js.

(** ** lodash *)

Module Lodash.
Import Js.

(** [_.isArray(v)] *)
Definition isArray (v : value) : bool :=
  match v with VArr _ => true | _ => false end.

(** [_.isPlainObject(v)] *)
Definition isPlainObject (v : value) : bool :=
  match v with VObj _ => true | _ => false end.

(** [_.pick(object, props)] with an array of keys: every listed key that is
    in [object] is copied, in the order of [props]. *)
Definition pick {A : Type} (object : list (string * A)) (props : list string)
  : list (string * A) :=
  foldl (fun result key =>
           match get object key with
           | Some v => set result key v
           | None => result
           end) [] props.

(** [_.omit(object, key)]: a copy of [object] without [key]. *)
Definition omit {A : Type} (object : list (string * A)) (key : string)
  : list (string * A) :=
  List.filter (fun kv => negb (String.eqb (fst kv) key)) object.

(** [_.mapValues(object, iteratee)] *)
Definition mapValues {A B : Type} (iteratee : A -> B) (object : list (string * A))
  : list (string * B) :=
  List.map (fun kv => (fst kv, iteratee (snd kv))) object.

(** The characters of a string as an array (lodash's [arrayCopy] of an
    array-like destination). *)
Definition chars (s : string) : list value :=
  List.map (fun c => VStr (String c EmptyString)) (list_ascii_of_string s).

(** One step of [_.merge]: the value [object[key]] ends up with, from what
    it holds now ([None]: the key is missing) and the source value.
    A plain-object source is merged recursively into a plain-object
    destination (into a fresh object otherwise); an array source is merged
    index by index into an array destination (into the characters of a
    string destination, into a fresh array otherwise); an [undefined]
    source is skipped; any other source value is assigned. *)
Fixpoint mergeValue (cur : option value) (srcValue : value) {struct srcValue}
  : option value :=
  match srcValue with
  | VUndefined => cur
  | VObj sprops =>
      Some (VObj
        ((fix each (ps : list (string * value)) (object : obj) {struct ps} : obj :=
            match ps with
            | [] => object
            | (key, sv) :: ps' =>
                each ps' (match mergeValue (get object key) sv with
                          | Some r => set object key r
                          | None => object
                          end)
            end) sprops (match cur with Some (VObj o) => o | _ => [] end)))
  | VArr sitems =>
      Some (VArr
        ((fix each (ss : list value) (ds : list value) {struct ss} : list value :=
            match ss with
            | [] => ds
            | sv :: ss' =>
                match ds with
                | [] =>
                    match mergeValue None sv with
                    | Some r => r
                    | None => VUndefined
                    end :: each ss' []
                | d :: ds' =>
                    match mergeValue (Some d) sv with
                    | Some r => r
                    | None => d
                    end :: each ss' ds'
                end
            end) sitems (match cur with
                         | Some (VArr a) => a
                         | Some (VStr s) => chars s
                         | _ => []
                         end)))
  | _ => Some srcValue
  end.

(** A source value that [_.merge] assigns as it is. *)
Definition assigned (v : value) : bool :=
  match v with VUndefined | VArr _ | VObj _ => false | _ => true end.

(** A destination an array source is merged into index by index. *)
Definition arrayLike (cur : option value) : bool :=
  match cur with Some (VArr _) | Some (VStr _) => true | _ => false end.

(** The effect of one source property on the destination object. *)
Definition mergeProp (object : obj) (kv : string * value) : obj :=
  match mergeValue (get object (fst kv)) (snd kv) with
  | Some r => set object (fst kv) r
  | None => object
  end.

(** [_.merge(object, source)] on plain objects. *)
Definition merge (object source : obj) : obj := foldl mergeProp object source.

(** The index-wise merge of an array source into an array destination. *)
Fixpoint mergeItems (ds ss : list value) : list value :=
  match ss with
  | [] => ds
  | sv :: ss' =>
      match ds with
      | [] => match mergeValue None sv with Some r => r | None => VUndefined end
              :: mergeItems [] ss'
      | d :: ds' => match mergeValue (Some d) sv with Some r => r | None => d end
                    :: mergeItems ds' ss'
      end
  end.

(** Membership of a value in an array. *)
Definition includes (items : list value) (v : value) : bool :=
  existsb (value_eqb v) items.

(** Duplicates removed, first occurrences kept. *)
Fixpoint uniq (items : list value) : list value :=
  match items with
  | [] => []
  | v :: rest => v :: List.filter (fun w => negb (value_eqb v w)) (uniq rest)
  end.

(** [_.intersection(a, b)]: the unique values of [a] that are in [b];
    an argument that is not an array counts as empty. *)
Definition intersection (a b : value) : list value :=
  match a, b with
  | VArr xs, VArr ys => uniq (List.filter (includes ys) xs)
  | _, _ => []
  end.

(** [_.map(collection, iteratee, thisArg)] on an array: the iteratee is
    called with the element, its index and the collection.  With
    [thisArgSupport] (lodash 3.x) [this] is bound to [thisArg]; without it
    (lodash 4.x) the third argument is ignored and the call is a plain
    one, as it is for [undefined] as [thisArg]. *)
Definition map (thisArgSupport : bool) (collection : list value)
  (iteratee : jsfunction) (thisArg : value) : option (list value) :=
  all (List.map
         (fun ix => call iteratee (if thisArgSupport then thisArg else VUndefined)
                         [snd ix; VNum (Z.of_nat (fst ix)); VArr collection])
         (combine (seq 0 (length collection)) collection)).

End Lodash.

(** ** Node's util.format *)

Module NodeUtil.

(** [util.format(template, ...args)] for string arguments: every [%s] takes
    the next argument; a [%s] with no argument left stays as it is.  The
    templates of the plugin hold no other placeholder and as many [%s] as
    they are given arguments. *)
Fixpoint format (template : string) (args : list string) : string :=
  match template with
  | EmptyString => EmptyString
  | String "%" (String "s" rest) =>
      match args with
      | a :: args' => a ++ format rest args'
      | [] => String "%" (String "s" (format rest []))
      end
  | String c rest => String c (format rest args)
  end.

End NodeUtil.

(** ** Failures and the state-and-failure monad

    A thrown error or a rejected promise is [inl]; the state that was
    reached when it happened is kept. *)

Inductive exn : Type :=
| ValidationError            (* joi, or a column constraint checked by the ORM *)
| ConfigError (message : string)   (* [new Error(...)] thrown by the plugin *)
| DefineError (field : string)     (* [sequelize.define] refusing an
                                      attribute that has no type *)
| TypeError                  (* a property read on [null] *)
| PersistenceError (message : string).   (* raised by the database *)

Definition M (S A : Type) : Type := S -> (exn + A) * S.

Definition ret {S A : Type} (a : A) : M S A := fun s => (inr a, s).

Definition throw {S A : Type} (e : exn) : M S A := fun s => (inl e, s).

(** [p.then(f)]: [f] runs only when [p] resolved. *)
Definition then_ {S A B : Type} (p : M S A) (f : A -> M S B) : M S B :=
  fun s =>
    match p s with
    | (inr a, s') => f a s'
    | (inl e, s') => (inl e, s')
    end.

Notation "p >>= f" := (then_ p f) (at level 50, left associativity).

(** ** joi *)

Module Joi.
Import Js.

(** A rule checks one value and yields the validated (typed) result. *)
Definition rule (A : Type) : Type := value -> exn + A.

(** [joi.string()]: a string, and not the empty one. *)
Definition string_ : rule string :=
  fun v =>
    match v with
    | VStr s => if String.eqb s "" then inl ValidationError else inr s
    | _ => inl ValidationError
    end.

(** Every item of an array against one rule, first failure wins. *)
Fixpoint items {A : Type} (item : rule A) (vs : list value) : exn + list A :=
  match vs with
  | [] => inr []
  | v :: vs' =>
      match item v with
      | inl e => inl e
      | inr a =>
          match items item vs' with
          | inl e => inl e
          | inr l => inr (a :: l)
          end
      end
  end.

Section Array.
(** joi hands a string value to [JSON.parse] and takes the result when it
    is an array; the parser is a parameter of the embedding. *)
Variable JSON_parse : string -> option value.

Definition coerce (v : value) : value :=
  match v with
  | VStr s =>
      match JSON_parse s with
      | Some (VArr l) => VArr l
      | _ => v
      end
  | _ => v
  end.

(** [joi.array().items(item)], with [.single()] when [single] is set:
    a value that is not an array is then checked as the one-item array
    holding it. *)
Definition array {A : Type} (item : rule A) (single : bool) : rule (list A) :=
  fun v =>
    match coerce v with
    | VArr l => items item l
    | w => if single then items item [w] else inl ValidationError
    end.
End Array.

(** [schema.default(d)] on a key of an object: a missing or [undefined]
    value takes the default, unchecked. *)
Definition default_ {A : Type} (d : A) (r : rule A) (v : option value) : exn + A :=
  match v with
  | None | Some VUndefined => inr d
  | Some w => r w
  end.

End Joi.

(** ** The ORM's models *)

Module Sequelize.
Import Js.

(** A defined model, as the plugin reads it: its name, its table and its
    attribute definitions (each one an object, as Sequelize keeps them). *)
Record model : Type := {
  name : string;
  tableName : string;
  attributes : list (string * obj)
}.

(** What [sequelize.define(modelName, attrs, modelOpts)] is given. *)
Record definition : Type := {
  def_name : string;
  def_attrs : obj;
  def_tableName : string;
  def_timestamps : bool;
  def_indexes : list (list string)
}.

(** What [belongsTo] is given. *)
Record association : Type := {
  as_ : string;
  foreignKey : string;
  onDelete : string;
  target : string
}.

(** The models defined, associations made and update hooks registered
    so far: the schema-level state of the connection. *)
Record registry : Type := {
  defined : list definition;
  associations : list (string * association);
  afterUpdateHooks : list (string * string)
}.

(** [sequelize.define] of a definition whose attributes all have a type:
    the definition is recorded and handed back.  On an attribute without
    a type the library throws; its one caller, [createHistoryModel], tests
    the one attribute that can lack a type before it calls. *)
Definition define (d : definition) : M registry definition :=
  fun r =>
    (inr d, {| defined := (defined r ++ [d])%list;
               associations := associations r;
               afterUpdateHooks := afterUpdateHooks r |}).

(** [h.belongsTo(target, opts)] *)
Definition belongsTo (h : definition) (a : association) : M registry unit :=
  fun r =>
    (inr tt, {| defined := defined r;
                associations := (associations r ++ [(def_name h, a)])%list;
                afterUpdateHooks := afterUpdateHooks r |}).

(** [source.afterUpdate(hook)]: the hook of history model [h] is registered
    on [source]. *)
Definition registerAfterUpdate (source : model) (h : definition) : M registry unit :=
  fun r =>
    (inr tt, {| defined := defined r;
                associations := associations r;
                afterUpdateHooks := (afterUpdateHooks r ++ [(name source, def_name h)])%list |}).

(** A model instance inside an [afterUpdate] hook: the current values, the
    values before the update and the keys whose value the update changed. *)
Record instance : Type := {
  dataValues : obj;
  _previousDataValues : obj;
  changedKeys : list string
}.

(** [instance.changed()]: the changed keys, or [false] when there is none. *)
Definition changed (i : instance) : value :=
  match changedKeys i with
  | [] => VBool false
  | ks => VArr (List.map VStr ks)
  end.

(** What the plugin sends to the database at sync time. *)
Inductive call : Type :=
| BaseSync (table : string)        (* [Model.prototype.sync] *)
| Query (sql : string).            (* [sequelize.query(sql)] *)

End Sequelize.

(** ** The database behind the history table *)

Module Database.
Import Js.

(** The rows of one table, oldest first. *)
Definition table : Type := list obj.

(** The largest value of an [INTEGER] column. *)
Definition INT_MAX : Z := 2147483647.

(** [undefined] and [null] are both stored as SQL [NULL]. *)
Definition nullish (v : value) : bool :=
  match v with VUndefined | VNull => true | _ => false end.

(** SQL [a = b]: never true when a side is [NULL]. *)
Definition sql_eq (a b : value) : bool :=
  negb (nullish a) && negb (nullish b) && value_eqb a b.

(** [SELECT _revision FROM t WHERE "_sourceId" = sid], [NULL]s left out
    as [max] leaves them out. *)
Definition revisions (t : table) (sid : value) : list Z :=
  flat_map (fun row =>
              if sql_eq (prop row "_sourceId") sid
              then match prop row "_revision" with VNum n => [n] | _ => [] end
              else []) t.

(** SQL [max]: [NULL] over no rows. *)
Definition sql_max (l : list Z) : option Z :=
  match l with
  | [] => None
  | x :: l' => Some (fold_left Z.max l' x)
  end.

(** SQL [coalesce(x, d)] *)
Definition coalesce (x : option Z) (d : Z) : Z :=
  match x with Some v => v | None => d end.

(** [SELECT coalesce(max(_revision), 0) FROM t WHERE "_sourceId" = sid] *)
Definition max_revision (t : table) (sid : value) : Z :=
  coalesce (sql_max (revisions t sid)) 0.

(** The value the trigger function computes:
    [(SELECT coalesce(max(_revision), 0) FROM t WHERE "_sourceId" = NEW."_sourceId") + 1] *)
Definition next_revision (t : table) (NEW : obj) : Z :=
  max_revision t (prop NEW "_sourceId") + 1.

(** The trigger function [insert_<table>()] of line 100:
    [NEW._revision := ... + 1; RETURN NEW;], with the overflow error of
    [INTEGER] addition. *)
Definition insert_fn (t : table) (NEW : obj) : exn + obj :=
  let r := next_revision t NEW in
  if r <=? INT_MAX
  then inr (set NEW "_revision" (VNum r))
  else inl (PersistenceError "integer out of range").

(** [INSERT] into the history table once the trigger of line 104 is
    installed: the trigger function runs [BEFORE INSERT], then the
    [NOT NULL] constraint of [_sourceId] (line 54) is checked, then the row
    is stored.  The serial [_id] is the database's own and is left out of
    the row. *)
Definition insert (NEW : obj) : M table obj :=
  fun t =>
    match insert_fn t NEW with
    | inl e => (inl e, t)
    | inr row =>
        if nullish (prop row "_sourceId")
        then (inl (PersistenceError "null value in column _sourceId"), t)
        else (inr row, (t ++ [row])%list)
    end.

(** Rows inserted one after the other; the first failure stops. *)
Fixpoint insert_all (recs : list obj) : M table (list obj) :=
  match recs with
  | [] => ret []
  | r :: rs =>
      insert r >>= (fun row => insert_all rs >>= (fun rows => ret (row :: rows)))
  end.

(** How many of the records are for [sid]. *)
Definition inserts_for (sid : value) (recs : list obj) : nat :=
  length (List.filter (fun r => sql_eq (prop r "_sourceId") sid) recs).

(** The pair [(_sourceId, _revision)] of a row, when neither is [NULL]:
    what the unique key [naturalId] of lines 54 and 57 compares. *)
Definition natural_id (row : obj) : option (value * Z) :=
  if nullish (prop row "_sourceId") then None
  else match prop row "_revision" with
       | VNum n => Some (prop row "_sourceId", n)
       | _ => None
       end.

Definition natural_ids (t : table) : list (value * Z) := omap natural_id t.

(** The source table (rows under their primary key) and the history table. *)
Record world : Type := {
  source : list (value * obj);
  history : table
}.

(** An operation on the history table, run in the world. *)
Definition on_history {A : Type} (m : M table A) : M world A :=
  fun w =>
    match m (history w) with
    | (r, t) => (r, {| source := source w; history := t |})
    end.

(** The source row with primary key [pk]; [None] is the ORM's [null]. *)
Fixpoint find_row (rows : list (value * obj)) (pk : value) : option obj :=
  match rows with
  | [] => None
  | (k, row) :: rows' => if sql_eq k pk then Some row else find_row rows' pk
  end.

(** [UPDATE ... WHERE pk = ...] on the source table. *)
Fixpoint store_row (rows : list (value * obj)) (pk : value) (row : obj)
  : list (value * obj) :=
  match rows with
  | [] => []
  | (k, old) :: rows' =>
      if sql_eq k pk then (k, row) :: rows' else (k, old) :: store_row rows' pk row
  end.

End Database.

(** ** The ORM's operations on rows *)

Module Orm.
Import Js Database.

(** The column constraints the ORM checks before it inserts: an attribute
    defined with [allowNull: false] must have a value. *)
Definition notNull (attrs : obj) (values : obj) : bool :=
  forallb (fun kv =>
             negb (value_eqb (member (snd kv) "allowNull") (VBool false))
             || negb (nullish (prop values (fst kv)))) attrs.

(** [Model.create(record)]: the keys that are attributes of the model are
    kept, the constraints are checked and the row is inserted. *)
Definition create (m : Sequelize.definition) (record : obj) : M table obj :=
  let values :=
    List.filter (fun kv => has (Sequelize.def_attrs m) (fst kv)) record in
  if notNull (Sequelize.def_attrs m) values
  then insert values
  else throw ValidationError.

(** [this.getSource()]: the row the [belongsTo] association points at,
    [null] when there is none. *)
Definition getSource (this : obj) : M world (option obj) :=
  fun w => (inr (find_row (source w) (prop this "_sourceId")), w).

Section Update.
(** The [afterUpdate] hook registered on the model. *)
Variable afterUpdate : Sequelize.instance -> M world unit.

(** The instance after [set(values)]: the keys that are attributes of the
    model are assigned. *)
Definition assign (m : Sequelize.model) (row values : obj) : obj :=
  foldl (fun o kv => set o (fst kv) (snd kv)) row
        (List.filter (fun kv => has (Sequelize.attributes m) (fst kv)) values).

(** [set(key, value)] marks the key as changed when the value is not
    primitive (and not [null]) or is not the value the instance holds. *)
Definition marks (row : obj) (kv : string * value) : bool :=
  (negb (primitive (snd kv)) && negb (value_eqb (snd kv) VNull))
  || negb (strictEq (snd kv) (prop row (fst kv))).


(** What [changed()] lists after [set(values)]: the keys of the instance
    that were marked. *)
Definition changedBy (m : Sequelize.model) (row values : obj) : list string :=
  List.filter
    (fun k => existsb (fun kv => String.eqb (fst kv) k && marks row kv)
                      (List.filter (fun kv => has (Sequelize.attributes m) (fst kv))
                                   values))
    (keys (assign m row values)).

(** [instance.update(values)] on the row with primary key [pk]: the
    values are set, the row is saved, then the hook runs with the
    instance, which still knows its previous values and what changed;
    the instance the update resolves to has them reset. *)
Definition update (m : Sequelize.model) (pk : value) (row values : obj)
  : M world Sequelize.instance :=
  let new := assign m row values in
  (fun w => (inr tt, {| source := store_row (source w) pk new;
                        history := history w |}))
  >>= (fun _ => afterUpdate {| Sequelize.dataValues := new;
                               Sequelize._previousDataValues := row;
                               Sequelize.changedKeys := changedBy m row values |})
  >>= (fun _ => ret {| Sequelize.dataValues := new;
                       Sequelize._previousDataValues := new;
                       Sequelize.changedKeys := [] |}).
End Update.

End Orm.

(** ** The history plugin ([src/unnamed/part_000], lines 1-192) *)

Module HistoryPlugin.
Import Js.

(** The validated options. *)
Record options : Type := {
  track : list string;
  idAttr : string;
  modelName : string;
  tableName : string
}.

(** The four rules of the schema, each with its default. *)
Record schema : Type := {
  track_rule : option value -> exn + list string;
  idAttr_rule : option value -> exn + string;
  modelName_rule : option value -> exn + string;
  tableName_rule : option value -> exn + string
}.

Section Validation.
Variable JSON_parse : string -> option value.

(** [internals.optionsSchema] (lines 18-32) *)
Definition optionsSchema (model : Sequelize.model) : schema :=
  {| track_rule :=
       Joi.default_ (keys (Sequelize.attributes model))
                    (Joi.array JSON_parse Joi.string_ true);
     idAttr_rule := Joi.default_ "id" Joi.string_;
     modelName_rule :=
       Joi.default_ (Sequelize.name model ++ "History") Joi.string_;
     tableName_rule :=
       Joi.default_ (Sequelize.tableName model ++ "_history") Joi.string_ |}.
End Validation.

(** The keys the schema knows. *)
Definition schema_keys : list string :=
  ["track"; "idAttr"; "modelName"; "tableName"].

(** [joi.validate(options, schema, callback)] (line 185): the four keys are
    checked by their rules; a key the schema does not know is an error. *)
Definition validate (opts : obj) (s : schema) : exn + options :=
  match track_rule s (get opts "track") with
  | inl e => inl e
  | inr t =>
  match idAttr_rule s (get opts "idAttr") with
  | inl e => inl e
  | inr i =>
  match modelName_rule s (get opts "modelName") with
  | inl e => inl e
  | inr m =>
  match tableName_rule s (get opts "tableName") with
  | inl e => inl e
  | inr tn =>
      if forallb (fun k => existsb (String.eqb k) schema_keys) (keys opts)
      then inr {| track := t; idAttr := i; modelName := m; tableName := tn |}
      else inl ValidationError
  end end end end.

(** The six meta attributes (lines 49-67); [idAttr] is the definition of
    the source model's id attribute. *)
Definition metaAttrs (idAttr : obj) : obj :=
  [ ("_id", VObj [("type", VType INTEGER);
                  ("primaryKey", VBool true);
                  ("autoIncrement", VBool true)]);
    ("_sourceId", VObj [("type", prop idAttr "type");
                        ("allowNull", VBool false);
                        ("unique", VStr "naturalId")]);
    ("_revision", VObj [("type", VType INTEGER);
                        ("unique", VStr "naturalId")]);
    ("_user", VType STRING);
    ("_date", VType DATE);
    ("_changes", VType (ARRAY STRING)) ].

(** The tracked attributes without their auto-increment marker
    (lines 70-72). *)
Definition trackedAttrs (model : Sequelize.model) (o : options) : obj :=
  Lodash.mapValues (fun attr => VObj (Lodash.omit attr "autoIncrement"))
                   (Lodash.pick (Sequelize.attributes model) (track o)).

(** The attributes of the history model (lines 70-74). *)
Definition historyAttrs (model : Sequelize.model) (o : options) (idAttr : obj) : obj :=
  Lodash.merge (trackedAttrs model o) (metaAttrs idAttr).

(** What [model.attributes[options.idAttr]] of line 44 reads: the
    definition of an attribute; for a name that is no attribute but is
    inherited from [Object.prototype], a value that is truthy and has no
    [type] (an object without properties here); [undefined] otherwise. *)
Definition idAttrOf (model : Sequelize.model) (o : options) : option obj :=
  match get (Sequelize.attributes model) (idAttr o) with
  | Some idDef => Some idDef
  | None => if existsb (String.eqb (idAttr o)) inherited then Some [] else None
  end.

(** The attribute [key] of a definition has a type. *)
Definition typed (attrs : obj) (key : string) : bool :=
  match prop attrs key with
  | VObj def => negb (value_eqb (prop def "type") VUndefined)
  | VUndefined => false
  | _ => true
  end.

(** [internals.createHistoryModel] (lines 40-124).  An attribute definition
    is an object, hence truthy, and so is what an inherited name reads:
    the test of line 46 fails exactly on [undefined].  The attributes of
    the source model have their types, as Sequelize keeps them, so the one
    attribute [sequelize.define] can find without a type is [_sourceId],
    from an inherited name: it then throws.  The [instanceMethods] and
    [classMethods] of the model options are [restore] and [sync] below. *)
Definition createHistoryModel (model : Sequelize.model) (o : options)
  : M Sequelize.registry Sequelize.definition :=
  match idAttrOf model o with
  | None =>
      throw (ConfigError ("Invalid id attribute for model "
                          ++ Sequelize.name model ++ ": " ++ idAttr o))
  | Some idDef =>
      if has (Sequelize.attributes model) (idAttr o)
         || typed (historyAttrs model o idDef) "_sourceId"
      then
        Sequelize.define
          {| Sequelize.def_name := modelName o;
             Sequelize.def_attrs := historyAttrs model o idDef;
             Sequelize.def_tableName := tableName o;
             Sequelize.def_timestamps := false;
             Sequelize.def_indexes := [["_sourceId"]] |}
      else throw (DefineError "_sourceId")
  end.

(** [internals.associate] (lines 132-135) *)
Definition associate (historyModel : Sequelize.definition) (sourceModel : Sequelize.model)
  : M Sequelize.registry Sequelize.definition :=
  Sequelize.belongsTo historyModel
    {| Sequelize.as_ := "source";
       Sequelize.foreignKey := "_sourceId";
       Sequelize.onDelete := "cascade";
       Sequelize.target := Sequelize.name sourceModel |}
  >>= (fun _ => ret historyModel).

(** [internals.addHooks] (lines 165-172), the registration.  The hook it
    registers is [afterUpdate] below. *)
Definition addHooks (historyModel : Sequelize.definition) (sourceModel : Sequelize.model)
  (o : options) : M Sequelize.registry Sequelize.definition :=
  Sequelize.registerAfterUpdate sourceModel historyModel
  >>= (fun _ => ret historyModel).

(** The options the factory of line 179 starts from: an array is the
    [track] list, a plain object is taken as it is, anything else makes the
    argument list the [track] list. *)
Definition pluginOptions (arguments : list value) : obj :=
  let opts := nth 0 arguments VUndefined in
  let opts := if Lodash.isArray opts then VObj [("track", opts)] else opts in
  match opts with
  | VObj o => o
  | _ => [("track", VArr arguments)]
  end.

(** The attach function the factory returns (lines 184-191), called once. *)
Definition attach (JSON_parse : string -> option value) (opts : obj)
  (model : Sequelize.model) : M Sequelize.registry Sequelize.definition :=
  match validate opts (optionsSchema JSON_parse model) with
  | inl err => throw err
  | inr validated =>
      createHistoryModel model validated
      >>= (fun h => associate h model)
      >>= (fun h => addHooks h model validated)
  end.

(** *** sync (lines 92-111) *)

(** The double-quote character of the SQL identifiers. *)
Definition dq : string := String (ascii_of_nat 34) EmptyString.

Definition dropInsertTrigger (tableName : string) : Sequelize.call :=
  Sequelize.Query
    (NodeUtil.format "DROP TRIGGER IF EXISTS insert_%s ON %s" [tableName; tableName]).

Definition createInsertFn (tableName : string) : Sequelize.call :=
  Sequelize.Query
    (NodeUtil.format
       ("CREATE OR REPLACE FUNCTION insert_%s() RETURNS TRIGGER AS $$ BEGIN NEW._revision := (SELECT coalesce(max(_revision), 0) FROM %s WHERE "
        ++ dq ++ "_sourceId" ++ dq ++ " = NEW." ++ dq ++ "_sourceId" ++ dq
        ++ ") + 1; RETURN NEW; END; $$ language plpgsql;")
       [tableName; tableName]).

Definition createInsertTrigger (tableName : string) : Sequelize.call :=
  Sequelize.Query
    (NodeUtil.format
       "CREATE TRIGGER insert_%s BEFORE INSERT ON %s FOR EACH ROW EXECUTE PROCEDURE insert_%s()"
       [tableName; tableName; tableName]).

Section Sync.
(** How the database answers a call: [Some e] rejects it with [e]. *)
Variable exec : Sequelize.call -> option exn.

(** A call is sent and logged; its promise resolves or rejects. *)
Definition send (c : Sequelize.call) : M (list Sequelize.call) unit :=
  fun log =>
    (match exec c with Some e => inl e | None => inr tt end, (log ++ [c])%list).

(** [classMethods.sync] (lines 107-110) *)
Definition sync (tableName : string) : M (list Sequelize.call) unit :=
  send (Sequelize.BaseSync tableName)
  >>= (fun _ => send (createInsertFn tableName))
  >>= (fun _ => send (dropInsertTrigger tableName))
  >>= (fun _ => send (createInsertTrigger tableName)).
End Sync.

(** *** Writing history (lines 145-172) *)

(** The record of lines 146-153; [now] is what [new Date()] reads. *)
Definition historyRecord (o : options) (now : Z) (inst : Sequelize.instance) : obj :=
  Lodash.merge
    (Lodash.pick (Sequelize._previousDataValues inst) (track o))
    [ ("_sourceId", prop (Sequelize.dataValues inst) (idAttr o));
      ("_date", VDate now);
      ("_changes", Sequelize.changed inst) ].

(** [internals.writeHistory] (lines 145-156) *)
Definition writeHistory (historyModel : Sequelize.definition)
  (sourceModel : Sequelize.model) (o : options) (now : Z)
  (inst : Sequelize.instance) : M Database.table obj :=
  Orm.create historyModel (historyRecord o now inst).

(** The tracked fields among the changed ones (line 167). *)
Definition trackedChanges (o : options) (inst : Sequelize.instance) : list value :=
  Lodash.intersection (Sequelize.changed inst) (VArr (List.map VStr (track o))).

(** The hook of lines 166-169: the row written, or [None] when the hook
    returns [undefined] without writing. *)
Definition afterUpdate (historyModel : Sequelize.definition)
  (sourceModel : Sequelize.model) (o : options) (now : Z)
  (inst : Sequelize.instance) : M Database.table (option obj) :=
  if (0 <? Z.of_nat (length (trackedChanges o inst)))
  then writeHistory historyModel sourceModel o now inst
       >>= (fun row => ret (Some row))
  else ret None.




(** The hook as the ORM runs it after an update of the source model. *)
Definition hook (historyModel : Sequelize.definition)
  (sourceModel : Sequelize.model) (o : options) (now : Z)
  (inst : Sequelize.instance) : M Database.world unit :=
  Database.on_history (afterUpdate historyModel sourceModel o now inst)
  >>= (fun _ => ret tt).

(** [instanceMethods.restore] (lines 81-88); [this] is the history row. *)
Definition restore (historyModel : Sequelize.definition)
  (sourceModel : Sequelize.model) (o : options) (now : Z) (this : obj)
  : M Database.world Sequelize.instance :=
  let values := Lodash.pick this (track o) in
  Orm.getSource this
  >>= (fun source =>
         match source with
         | None => throw TypeError
         | Some row =>
             Orm.update (hook historyModel sourceModel o now) sourceModel
                        (prop this "_sourceId") row values
         end).

(** *** The options the closure keeps (lines 185-188) *)

(** The validated options as the object [options = validated] stores. *)
Definition optionsObject (o : options) : obj :=
  [ ("track", VArr (List.map VStr (track o)));
    ("idAttr", VStr (idAttr o));
    ("modelName", VStr (modelName o));
    ("tableName", VStr (tableName o)) ].

(** The closure's [options] after the attach function ran on [model]:
    replaced by the validated options, or left alone when validation
    threw. *)
Definition closureAfter (JSON_parse : string -> option value) (opts : obj)
  (model : Sequelize.model) : obj :=
  match validate opts (optionsSchema JSON_parse model) with
  | inl _ => opts
  | inr validated => optionsObject validated
  end.

(** The names of the six meta attributes of line 49-67. *)
Definition metaNames : list string :=
  ["_id"; "_sourceId"; "_revision"; "_user"; "_date"; "_changes"].

End HistoryPlugin.

(** ** The array transform ([src/index.js] and lines 193-200 of
    [src/unnamed/part_000]) *)

Module ArrayTransform.
Import Js.

Definition arr : list value := [VObj [("a", VNum 3)]; VObj [("a", VNum 4)]].

Definition ctx : value := VObj [("b", VNum 5)].

(** [function(obj) {return obj.a + this.b}] *)
Definition iteratee : jsfunction :=
  fun this args => js_add (member (nth 0 args VUndefined) "a") (member this "b").

(** What a run leaves: the value of [transformed] and the lines printed. *)
Definition outcome : Type := (list value * list string)%type.

(** The program, for a given way of calling [_.map]. *)
Definition program (mapped : option (list value)) : option outcome :=
  option_map (fun transformed => (transformed, [join transformed ", "])) mapped.

(** [src/index.js]: the context is bound to the iteratee. *)
Definition index_js (thisArgSupport : bool) : option outcome :=
  program (Lodash.map thisArgSupport arr (bind iteratee ctx) VUndefined).

(** The variant: the context is the third argument of [_.map]. *)
Definition variant (thisArgSupport : bool) : option outcome :=
  program (Lodash.map thisArgSupport arr iteratee ctx).

End ArrayTransform.

(** ** Sample data *)

Module Samples.
Import Js.

(** A model with an auto-numbered [id] and the fields [x], [y], [z]. *)
Definition Order : Sequelize.model :=
  {| Sequelize.name := "Order";
     Sequelize.tableName := "orders";
     Sequelize.attributes :=
       [ ("id", [("type", VType INTEGER); ("primaryKey", VBool true);
                 ("autoIncrement", VBool true)]);
         ("x", [("type", VType STRING)]);
         ("y", [("type", VType STRING)]);
         ("z", [("type", VType DATE)]) ] |}.

(** [track = ["x", "y"]], everything else by default. *)
Definition trackXY : HistoryPlugin.options :=
  {| HistoryPlugin.track := ["x"; "y"];
     HistoryPlugin.idAttr := "id";
     HistoryPlugin.modelName := "OrderHistory";
     HistoryPlugin.tableName := "orders_history" |}.

(** The history model the builder makes of them. *)
Definition OrderHistory : Sequelize.definition :=
  {| Sequelize.def_name := "OrderHistory";
     Sequelize.def_attrs :=
       HistoryPlugin.historyAttrs Order trackXY
         [("type", VType INTEGER); ("primaryKey", VBool true);
          ("autoIncrement", VBool true)];
     Sequelize.def_tableName := "orders_history";
     Sequelize.def_timestamps := false;
     Sequelize.def_indexes := [["_sourceId"]] |}.

(** Row 7 after an update that changed [x] and [z]. *)
Definition updatedXZ : Sequelize.instance :=
  {| Sequelize.dataValues :=
       [("id", VNum 7); ("x", VStr "new"); ("y", VStr "b"); ("z", VDate 5)];
     Sequelize._previousDataValues :=
       [("id", VNum 7); ("x", VStr "a"); ("y", VStr "b"); ("z", VDate 1)];
     Sequelize.changedKeys := ["x"; "z"] |}.

(** Row 7 after an update that changed [z] only. *)
Definition updatedZ : Sequelize.instance :=
  {| Sequelize.dataValues :=
       [("id", VNum 7); ("x", VStr "a"); ("y", VStr "b"); ("z", VDate 5)];
     Sequelize._previousDataValues :=
       [("id", VNum 7); ("x", VStr "a"); ("y", VStr "b"); ("z", VDate 1)];
     Sequelize.changedKeys := ["z"] |}.

(** The history row written for row 7 when [x] went from ["a"] to
    ["new"]. *)
Definition firstRevision : obj :=
  [ ("x", VStr "a"); ("y", VStr "b"); ("_sourceId", VNum 7);
    ("_date", VDate 100); ("_changes", VArr [VStr "x"; VStr "z"]);
    ("_revision", VNum 1) ].


(** The tables with source row 7 as the update left it. *)
Definition afterUpdateXZ : Database.world :=
  {| Database.source := [(VNum 7, Sequelize.dataValues updatedXZ)];
     Database.history := [firstRevision] |}.

(** A source model with a required field named [_revision], tracked. *)
Definition Document : Sequelize.model :=
  {| Sequelize.name := "Document";
     Sequelize.tableName := "documents";
     Sequelize.attributes :=
       [ ("id", [("type", VType INTEGER); ("primaryKey", VBool true)]);
         ("_revision", [("type", VType STRING); ("allowNull", VBool false)]) ] |}.

Definition trackRevision : HistoryPlugin.options :=
  {| HistoryPlugin.track := ["_revision"];
     HistoryPlugin.idAttr := "id";
     HistoryPlugin.modelName := "DocumentHistory";
     HistoryPlugin.tableName := "documents_history" |}.



End Samples.

(** ** The documented statements, for comparison

    These follow the words of the specification, not the source. *)

Module Documented.

(** The text documented for the statement that creates the trigger
    function. *)
Definition createInsertFn (t : string) : string :=
  "CREATE OR REPLACE FUNCTION insert_" ++ t
  ++ "() RETURNS TRIGGER AS $$ BEGIN NEW._revision := (SELECT coalesce(max(_revision),0) FROM "
  ++ t ++ " WHERE " ++ HistoryPlugin.dq ++ "_sourceId" ++ HistoryPlugin.dq
  ++ " = NEW." ++ HistoryPlugin.dq ++ "_sourceId" ++ HistoryPlugin.dq
  ++ ") + 1; RETURN NEW; END; $$ LANGUAGE plpgsql;".

(** The order documented for the calls of [sync]: drop, function, trigger. *)
Definition sync_calls (t : string) : list Sequelize.call :=
  [ Sequelize.BaseSync t;
    HistoryPlugin.dropInsertTrigger t;
    HistoryPlugin.createInsertFn t;
    HistoryPlugin.createInsertTrigger t ].

End Documented.

(** * Properties *)

Import Js.

(** ** Values *)

(** Induction on values that reaches the items of arrays and the values of
    properties. *)
Lemma value_ind (P : value -> Prop) :
  P VUndefined -> P VNull -> (forall b, P (VBool b)) -> (forall n, P (VNum n)) ->
  P VNaN -> (forall s, P (VStr s)) -> (forall t, P (VDate t)) ->
  (forall t, P (VType t)) ->
  (forall items, Forall P items -> P (VArr items)) ->
  (forall props, Forall (fun kv => P (snd kv)) props -> P (VObj props)) ->
  forall v, P v.
Proof.
  intros Hu Hn Hb Hz Hnan Hs Hd Ht Ha Ho.
  fix IH 1. intros [ | | b | n | | s | t | t | items | props].
  - exact Hu.
  - exact Hn.
  - apply Hb.
  - apply Hz.
  - exact Hnan.
  - apply Hs.
  - apply Hd.
  - apply Ht.
  - apply Ha. induction items as [|x xs IHxs]; constructor.
    + apply IH.
    + exact IHxs.
  - apply Ho. induction props as [|[k x] xs IHxs]; constructor.
    + apply IH.
    + exact IHxs.
Qed.

Lemma datatype_eqb_eq (a b : datatype) : datatype_eqb a b = true <-> a = b.
Proof.
  revert b. induction a as [ | | | a IHa | x]; intros [ | | | b | y]; simpl;
    try (split; [discriminate | congruence]); try tauto.
  - rewrite IHa. split; congruence.
  - rewrite String.eqb_eq. split; congruence.
Qed.

Lemma value_eqb_eq (a b : value) : value_eqb a b = true <-> a = b.
Proof.
  revert b. induction a as [ | | x | x | | x | x | x | xs IH | xs IH] using value_ind;
    intros [ | | y | y | | y | y | y | ys | ys]; simpl;
    try (split; [discriminate | congruence]); try tauto.
  - rewrite Bool.eqb_true_iff. split; congruence.
  - rewrite Z.eqb_eq. split; congruence.
  - rewrite String.eqb_eq. split; congruence.
  - rewrite Z.eqb_eq. split; congruence.
  - rewrite datatype_eqb_eq. split; congruence.
  - revert ys. induction IH as [|x xs Hx _ IHxs]; intros [|y ys];
      try (split; [discriminate | congruence]); try tauto.
    rewrite andb_true_iff, Hx.
    specialize (IHxs ys). rewrite IHxs. split.
    + intros [-> E]. congruence.
    + intros E. injection E as -> ->. auto.
  - revert ys. induction IH as [|[k x] xs Hx _ IHxs]; intros [|[l y] ys];
      try (split; [discriminate | congruence]); try tauto.
    simpl in Hx. rewrite !andb_true_iff, Hx, String.eqb_eq.
    specialize (IHxs ys). rewrite IHxs. split.
    + intros [[-> ->] E]. congruence.
    + intros E. injection E as -> -> ->. auto.
Qed.

Lemma value_eqb_refl (a : value) : value_eqb a a = true.
Proof. now apply value_eqb_eq. Qed.

Lemma value_eqb_neq (a b : value) : value_eqb a b = false <-> a <> b.
Proof.
  rewrite <- value_eqb_eq. destruct (value_eqb a b); split; congruence.
Qed.

(** ** Objects *)

Section AssocFacts.
Context {A : Type}.
Implicit Types (o : list (string * A)) (k : string).

Lemma get_set_eq o k v : get (set o k v) k = Some v.
Proof.
  induction o as [|[k' w] o IH]; simpl.
  - now rewrite String.eqb_refl.
  - destruct (String.eqb k' k) eqn:E; simpl; rewrite E; auto.
Qed.

Lemma get_set_ne o k k' v : k <> k' -> get (set o k v) k' = get o k'.
Proof.
  intros Hne. induction o as [|[k0 w] o IH]; simpl.
  - destruct (String.eqb_spec k k'); congruence.
  - destruct (String.eqb_spec k0 k) as [->|]; simpl.
    + destruct (String.eqb_spec k k'); congruence.
    + destruct (String.eqb_spec k0 k'); auto.
Qed.

Lemma get_None_iff o k : get o k = None <-> ~ In k (keys o).
Proof.
  induction o as [|[k' w] o IH]; simpl; [tauto|].
  destruct (String.eqb_spec k' k) as [->|Hne].
  - split; [discriminate | tauto].
  - rewrite IH. unfold keys. tauto.
Qed.

Lemma get_Some_In o k v : get o k = Some v -> In k (keys o).
Proof.
  intros H. destruct (in_dec string_dec k (keys o)) as [|Hn]; auto.
  apply get_None_iff in Hn. congruence.
Qed.

End AssocFacts.

Lemma prop_set_eq (o : obj) k v : prop (set o k v) k = v.
Proof. unfold prop. now rewrite get_set_eq. Qed.

Lemma prop_set_ne (o : obj) k k' v : k <> k' -> prop (set o k v) k' = prop o k'.
Proof. intros H. unfold prop. now rewrite get_set_ne. Qed.

(** ** lodash *)

Section PickFacts.
Context {A : Type}.
Implicit Types (o : list (string * A)) (k : string).

Lemma get_pick_fold o ks k acc :
  get (foldl (fun result key =>
                match get o key with
                | Some v => set result key v
                | None => result
                end) acc ks) k
  = match (if in_dec string_dec k ks then get o k else None) with
    | Some v => Some v
    | None => get acc k
    end.
Proof.
  revert acc. induction ks as [|a ks IH]; intros acc; simpl; [reflexivity|].
  rewrite IH. destruct (in_dec string_dec k ks) as [Hin|Hnin].
  - destruct (string_dec a k) as [->|Hne].
    + destruct (get o k) eqn:E; auto.
    + destruct (get o k) eqn:E; auto.
      destruct (get o a); auto. now apply get_set_ne.
  - destruct (string_dec a k) as [->|Hne].
    + destruct (get o k) eqn:E; auto. apply get_set_eq.
    + destruct (get o a); auto. now apply get_set_ne.
Qed.

(** A picked key reads as in the object; any other key is missing. *)
Lemma get_pick o ks k :
  get (Lodash.pick o ks) k = if in_dec string_dec k ks then get o k else None.
Proof.
  unfold Lodash.pick. rewrite get_pick_fold.
  destruct (in_dec string_dec k ks); [destruct (get o k)|]; reflexivity.
Qed.

Lemma get_pick_in o ks k : In k ks -> get (Lodash.pick o ks) k = get o k.
Proof. intros H. rewrite get_pick. destruct (in_dec string_dec k ks); tauto. Qed.

Lemma get_pick_notin o ks k : ~ In k ks -> get (Lodash.pick o ks) k = None.
Proof. intros H. rewrite get_pick. destruct (in_dec string_dec k ks); tauto. Qed.

Lemma get_mapValues {B : Type} (f : A -> B) o k :
  get (Lodash.mapValues f o) k = option_map f (get o k).
Proof.
  induction o as [|[k' v] o IH]; simpl; [reflexivity|].
  destruct (String.eqb k' k); auto.
Qed.

Lemma get_omit_eq o k : get (Lodash.omit o k) k = None.
Proof.
  induction o as [|[k' v] o IH]; simpl; [reflexivity|].
  destruct (String.eqb k' k) eqn:E; simpl; [auto|]. now rewrite E.
Qed.

Lemma get_omit_ne o k k' : k <> k' -> get (Lodash.omit o k) k' = get o k'.
Proof.
  intros Hne. induction o as [|[k0 v] o IH]; simpl; [reflexivity|].
  destruct (String.eqb_spec k0 k) as [->|]; simpl.
  - destruct (String.eqb_spec k k'); congruence.
  - now rewrite IH.
Qed.
End PickFacts.

Section MergeFacts.
Implicit Types (d s : obj) (k : string).

Lemma mergeValue_obj cur sp :
  Lodash.mergeValue cur (VObj sp)
  = Some (VObj (Lodash.merge (match cur with Some (VObj o) => o | _ => [] end) sp)).
Proof.
  simpl. do 2 f_equal.
  match goal with
  | |- ?each sp ?x = Lodash.merge ?y sp =>
      change (each sp y = Lodash.merge y sp); generalize y
  end.
  induction sp as [|[key sv] sp IH]; intros o; simpl; [reflexivity|].
  now rewrite IH.
Qed.

Lemma mergeValue_arr cur ss :
  Lodash.mergeValue cur (VArr ss)
  = Some (VArr (Lodash.mergeItems
                  (match cur with
                   | Some (VArr a) => a
                   | Some (VStr s) => Lodash.chars s
                   | _ => []
                   end) ss)).
Proof.
  simpl. do 2 f_equal.
  match goal with
  | |- ?each ss ?x = Lodash.mergeItems ?y ss =>
      change (each ss y = Lodash.mergeItems y ss); generalize y
  end.
  induction ss as [|sv ss IH]; intros ds; simpl; [reflexivity|].
  destruct ds; now rewrite IH.
Qed.

Lemma mergeValue_assigned cur sv :
  Lodash.assigned sv = true -> Lodash.mergeValue cur sv = Some sv.
Proof. destruct sv; simpl; congruence. Qed.

Lemma mergeValue_None cur sv :
  Lodash.mergeValue cur sv = None -> cur = None.
Proof. destruct sv; simpl; congruence. Qed.

Lemma get_mergeProp_eq d k sv :
  get (Lodash.mergeProp d (k, sv)) k = Lodash.mergeValue (get d k) sv.
Proof.
  unfold Lodash.mergeProp; simpl.
  destruct (Lodash.mergeValue (get d k) sv) eqn:E.
  - apply get_set_eq.
  - now apply mergeValue_None in E.
Qed.

Lemma get_mergeProp_ne d k k' sv :
  k' <> k -> get (Lodash.mergeProp d (k', sv)) k = get d k.
Proof.
  intros Hne. unfold Lodash.mergeProp; simpl.
  destruct (Lodash.mergeValue (get d k') sv); auto. now apply get_set_ne.
Qed.

(** A key the source does not have is left as it was. *)
Lemma get_merge_notin d s k :
  get s k = None -> get (Lodash.merge d s) k = get d k.
Proof.
  revert d. induction s as [|[k' sv] s IH]; intros d H; simpl in *; [reflexivity|].
  destruct (String.eqb_spec k' k) as [->|Hne]; [discriminate|].
  unfold Lodash.merge in *. simpl. rewrite IH by assumption.
  now apply get_mergeProp_ne.
Qed.

(** A key the source has once ends up with its merged value. *)
Lemma get_merge_in d s k sv :
  NoDup (keys s) -> get s k = Some sv ->
  get (Lodash.merge d s) k = Lodash.mergeValue (get d k) sv.
Proof.
  revert d. induction s as [|[k' sv'] s IH]; intros d Hnd H; simpl in *; [discriminate|].
  apply NoDup_cons in Hnd as [Hnin Hnd]. rewrite list_elem_of_In in Hnin.
  unfold Lodash.merge in *. simpl.
  destruct (String.eqb_spec k' k) as [->|Hne].
  - injection H as ->.
    change (get (Lodash.merge (Lodash.mergeProp d (k, sv)) s) k
            = Lodash.mergeValue (get d k) sv).
    rewrite get_merge_notin by now apply get_None_iff.
    apply get_mergeProp_eq.
  - rewrite IH by assumption. now rewrite get_mergeProp_ne.
Qed.

(** Merging an array of strings into a missing or scalar destination
    copies it. *)
Lemma mergeItems_strings ks :
  Lodash.mergeItems [] (List.map VStr ks) = List.map VStr ks.
Proof. induction ks as [|k ks IH]; simpl; congruence. Qed.
End MergeFacts.

(** ** The statements of sync *)

Lemma append_empty_r (s : string) : s ++ EmptyString = s.
Proof. induction s as [|c s IH]; simpl; congruence. Qed.

(** C6, as documented, fails: the text the plugin sends to create the
    trigger function is not the documented one (the source has a space
    after the comma of [coalesce] and writes [language] in lower case). *)
Lemma createInsertFn_not_as_documented :
  HistoryPlugin.createInsertFn "t"
  <> Sequelize.Query (Documented.createInsertFn "t").
Proof. intros H. vm_compute in H. discriminate H. Qed.

(** C6, amended: for every history table name, the three statements of sync
    are, character for character, the templates of lines 96, 100 and 104
    with the table name in the place of each [%s]. *)
Theorem sync_statements (t : string) :
  HistoryPlugin.dropInsertTrigger t
  = Sequelize.Query ("DROP TRIGGER IF EXISTS insert_" ++ t ++ " ON " ++ t)
  /\ HistoryPlugin.createInsertFn t
     = Sequelize.Query
         ("CREATE OR REPLACE FUNCTION insert_" ++ t
          ++ "() RETURNS TRIGGER AS $$ BEGIN NEW._revision := (SELECT coalesce(max(_revision), 0) FROM "
          ++ t ++ " WHERE " ++ HistoryPlugin.dq ++ "_sourceId" ++ HistoryPlugin.dq
          ++ " = NEW." ++ HistoryPlugin.dq ++ "_sourceId" ++ HistoryPlugin.dq
          ++ ") + 1; RETURN NEW; END; $$ language plpgsql;")
  /\ HistoryPlugin.createInsertTrigger t
     = Sequelize.Query
         ("CREATE TRIGGER insert_" ++ t ++ " BEFORE INSERT ON " ++ t
          ++ " FOR EACH ROW EXECUTE PROCEDURE insert_" ++ t ++ "()").
Proof.
  unfold HistoryPlugin.dropInsertTrigger, HistoryPlugin.createInsertFn,
    HistoryPlugin.createInsertTrigger.
  repeat split; f_equal; cbn; rewrite ?append_empty_r; reflexivity.
Qed.

(** C7, as documented, fails: the calls sync sends are not in the
    documented order. *)
Lemma sync_order_not_as_documented :
  snd (HistoryPlugin.sync (fun _ => None) "t" []) <> Documented.sync_calls "t".
Proof. intros H. vm_compute in H. discriminate H. Qed.

(** C7, amended: sync first runs the table sync; when that resolves it
    creates or replaces the trigger function, then drops the trigger if it
    exists, then creates the before-insert trigger; each call is sent only
    when the one before it resolved, and the first rejection is the
    outcome of sync. *)
Theorem sync_order (exec : Sequelize.call -> option exn) (t : string)
  (log : list Sequelize.call) :
  HistoryPlugin.sync exec t log =
  match exec (Sequelize.BaseSync t) with
  | Some e => (inl e, (log ++ [Sequelize.BaseSync t])%list)
  | None =>
  match exec (HistoryPlugin.createInsertFn t) with
  | Some e => (inl e, (log ++ [Sequelize.BaseSync t;
                               HistoryPlugin.createInsertFn t])%list)
  | None =>
  match exec (HistoryPlugin.dropInsertTrigger t) with
  | Some e => (inl e, (log ++ [Sequelize.BaseSync t;
                               HistoryPlugin.createInsertFn t;
                               HistoryPlugin.dropInsertTrigger t])%list)
  | None =>
      (match exec (HistoryPlugin.createInsertTrigger t) with
       | Some e => inl e
       | None => inr tt
       end,
       (log ++ [Sequelize.BaseSync t;
                HistoryPlugin.createInsertFn t;
                HistoryPlugin.dropInsertTrigger t;
                HistoryPlugin.createInsertTrigger t])%list)
  end end end.
Proof.
  unfold HistoryPlugin.sync, then_, HistoryPlugin.send.
  destruct (exec (Sequelize.BaseSync t)); [reflexivity|].
  destruct (exec (HistoryPlugin.createInsertFn t));
    [now rewrite <- app_assoc|].
  destruct (exec (HistoryPlugin.dropInsertTrigger t));
    [now rewrite <- !app_assoc|].
  now rewrite <- !app_assoc.
Qed.

(** ** The array transform *)

(** C10, as stated, fails: with a lodash whose [_.map] takes no [thisArg]
    (4.x) the variant leaves [NaN, NaN] and prints that, while the snippet
    with [bind] leaves [8, 9]. *)
Lemma variant_without_thisArg :
  ArrayTransform.variant false = Some ([VNaN; VNaN], ["NaN, NaN"])
  /\ ArrayTransform.variant false <> ArrayTransform.index_js false.
Proof. split; [reflexivity | discriminate]. Qed.

(** C10, amended: the snippet that binds the context with [bind] leaves the
    list [8, 9] and prints the line [8, 9] under either lodash; the variant
    that hands the context to [_.map] as third argument does so exactly
    when [_.map] takes a [thisArg] (lodash 3.x), and the two snippets are
    then equivalent: whatever the list, the iteratee and the context,
    mapping with the bound iteratee (under either lodash) is mapping with
    the context as [thisArg]. *)
Theorem array_transform_equivalent :
  (forall thisArgSupport,
      ArrayTransform.index_js thisArgSupport = Some ([VNum 8; VNum 9], ["8, 9"]))
  /\ ArrayTransform.variant true = Some ([VNum 8; VNum 9], ["8, 9"])
  /\ (forall thisArgSupport,
        ArrayTransform.variant thisArgSupport = ArrayTransform.index_js thisArgSupport
        <-> thisArgSupport = true)
  /\ forall (thisArgSupport : bool) (collection : list value) (f : jsfunction)
            (c : value),
       Lodash.map thisArgSupport collection (bind f c) VUndefined
       = Lodash.map true collection f c.
Proof.
  split; [|split; [|split]].
  - intros []; reflexivity.
  - reflexivity.
  - intros []; split; intros H; try reflexivity; discriminate H.
  - intros [] collection f c; reflexivity.
Qed.

(** ** Revision numbering by the trigger *)

Section Revisions.
Import Database.
Implicit Types (t : table) (sid : value) (l : list Z).

Lemma fold_max_spec l x :
  In (fold_left Z.max l x) (x :: l)
  /\ x <= fold_left Z.max l x
  /\ Forall (fun y => y <= fold_left Z.max l x) l.
Proof.
  revert x. induction l as [|a l IH]; intros x; simpl.
  - repeat split; [auto | lia | constructor].
  - destruct (IH (Z.max x a)) as (Hin & Hle & Hall). repeat split.
    + destruct Hin as [Hin|Hin]; [|auto].
      destruct (Z.max_spec x a) as [[_ E]|[_ E]]; [right; left | left]; congruence.
    + lia.
    + constructor; [lia | exact Hall].
Qed.

(** [max] picks a stored value that bounds all of them. *)
Lemma sql_max_spec l :
  match sql_max l with
  | None => l = []
  | Some m => In m l /\ Forall (fun y => y <= m) l
  end.
Proof.
  destruct l as [|x l]; simpl; [reflexivity|].
  destruct (fold_max_spec l x) as (Hin & Hle & Hall). split; auto.
Qed.

Lemma sql_max_snoc l x :
  sql_max (l ++ [x])%list
  = Some (match sql_max l with Some m => Z.max m x | None => x end).
Proof.
  destruct l as [|a l]; simpl; [reflexivity|].
  now rewrite fold_left_app.
Qed.

Lemma max_revision_bounds t sid n :
  In n (revisions t sid) -> n <= max_revision t sid.
Proof.
  unfold max_revision. intros Hin.
  pose proof (sql_max_spec (revisions t sid)) as H.
  destruct (sql_max (revisions t sid)) as [m|]; simpl.
  - destruct H as [_ Hall]. rewrite Forall_forall in Hall.
    apply Hall. now apply list_elem_of_In.
  - rewrite H in Hin. destruct Hin.
Qed.

Lemma revisions_app t1 t2 sid :
  revisions (t1 ++ t2)%list sid = (revisions t1 sid ++ revisions t2 sid)%list.
Proof. unfold revisions. apply flat_map_app. Qed.

Lemma sql_eq_refl v : nullish v = false -> sql_eq v v = true.
Proof. intros H. unfold sql_eq. now rewrite H, value_eqb_refl. Qed.

Lemma sql_eq_eq a b : sql_eq a b = true -> a = b.
Proof.
  unfold sql_eq. rewrite !andb_true_iff. intros [_ H]. now apply value_eqb_eq.
Qed.

Lemma revisions_row NEW r sid :
  revisions [set NEW "_revision" (VNum r)] sid
  = if sql_eq (prop NEW "_sourceId") sid then [r] else [].
Proof.
  unfold revisions; simpl.
  rewrite prop_set_ne by discriminate. rewrite prop_set_eq.
  now destruct (sql_eq (prop NEW "_sourceId") sid).
Qed.

(** After an insert for [sid] the largest revision of [sid] is one more. *)
Lemma max_revision_insert t NEW :
  nullish (prop NEW "_sourceId") = false ->
  max_revision (t ++ [set NEW "_revision" (VNum (next_revision t NEW))])%list
               (prop NEW "_sourceId")
  = max_revision t (prop NEW "_sourceId") + 1.
Proof.
  intros Hsid. unfold max_revision at 1.
  rewrite revisions_app, revisions_row, sql_eq_refl by assumption.
  rewrite sql_max_snoc. unfold next_revision, max_revision; simpl.
  destruct (sql_max (revisions t (prop NEW "_sourceId"))); simpl; lia.
Qed.

Lemma insert_ok t NEW :
  nullish (prop NEW "_sourceId") = false ->
  next_revision t NEW <= INT_MAX ->
  insert NEW t
  = (inr (set NEW "_revision" (VNum (next_revision t NEW))),
     (t ++ [set NEW "_revision" (VNum (next_revision t NEW))])%list).
Proof.
  intros Hsid Hle. unfold insert, insert_fn.
  apply Z.leb_le in Hle. rewrite Hle.
  rewrite prop_set_ne by discriminate. now rewrite Hsid.
Qed.

Lemma natural_ids_revisions t sid n :
  In (sid, n) (natural_ids t) -> In n (revisions t sid).
Proof.
  unfold natural_ids, revisions. intros Hin.
  apply list_elem_of_In, list_elem_of_omap in Hin as (row & Hrow & Hid).
  apply in_flat_map. exists row. split; [now apply list_elem_of_In|].
  unfold natural_id in Hid.
  destruct (nullish (prop row "_sourceId")) eqn:Hn; [discriminate|].
  destruct (prop row "_revision"); try discriminate.
  injection Hid as <- <-. rewrite sql_eq_refl by assumption. now left.
Qed.

(** The pair of the inserted row is new, so the pairs stay distinct. *)
Lemma natural_ids_insert t NEW :
  nullish (prop NEW "_sourceId") = false ->
  NoDup (natural_ids t) ->
  NoDup (natural_ids (t ++ [set NEW "_revision" (VNum (next_revision t NEW))])%list).
Proof.
  intros Hsid Hnd. unfold natural_ids. rewrite omap_app. simpl.
  unfold natural_id at 2. rewrite prop_set_ne by discriminate.
  rewrite Hsid, prop_set_eq.
  apply NoDup_app. repeat split; auto.
  - intros [s n] Hin Hin'. apply list_elem_of_In in Hin.
    rewrite list_elem_of_In in Hin'. destruct Hin' as [E|[]].
    injection E as <- <-.
    apply natural_ids_revisions, max_revision_bounds in Hin.
    unfold next_revision in Hin. lia.
  - apply NoDup_singleton.
Qed.
End Revisions.

Section RevisionSequence.
Import Database.

(** An insert for another source id leaves the largest revision alone. *)
Lemma max_revision_insert_other (t : table) (NEW : obj) (sid : value) :
  sql_eq (prop NEW "_sourceId") sid = false ->
  max_revision (t ++ [set NEW "_revision" (VNum (next_revision t NEW))])%list sid
  = max_revision t sid.
Proof.
  intros Hne. unfold max_revision.
  now rewrite revisions_app, revisions_row, Hne, app_nil_r.
Qed.

Lemma shift_revisions (m : Z) (c : nat) :
  ((m + 1) :: List.map (fun i => m + 1 + Z.of_nat i) (seq 1 c))
  = List.map (fun i => m + Z.of_nat i) (seq 1 (S c)).
Proof.
  simpl. f_equal. rewrite <- (seq_shift c 1), List.map_map.
  apply List.map_ext. intros i. lia.
Qed.

Lemma insert_all_spec (recs : list obj) :
  Forall (fun r => nullish (prop r "_sourceId") = false) recs ->
  forall t : table,
    (forall sid, max_revision t sid + Z.of_nat (inserts_for sid recs) <= INT_MAX) ->
    exists rows,
      insert_all recs t = (inr rows, (t ++ rows)%list)
      /\ Forall2 (fun r row => exists n, row = set r "_revision" (VNum n)) recs rows
      /\ (forall sid,
            revisions rows sid
            = List.map (fun i => max_revision t sid + Z.of_nat i)
                       (seq 1 (inserts_for sid recs)))
      /\ (NoDup (natural_ids t) -> NoDup (natural_ids (t ++ rows)%list)).
Proof.
  intros Hall. induction Hall as [|r rs Hr _ IH]; intros t Hle.
  - exists []. simpl. rewrite app_nil_r. repeat split; auto.
  - set (row := set r "_revision" (VNum (next_revision t r))).
    assert (Hfit : next_revision t r <= INT_MAX).
    { specialize (Hle (prop r "_sourceId")). unfold inserts_for in Hle.
      simpl in Hle. rewrite sql_eq_refl in Hle by assumption.
      simpl in Hle. unfold next_revision. lia. }
    destruct (IH (t ++ [row])%list) as (rows & Hrun & Hrows & Hrev & Hnd).
    { intros sid. specialize (Hle sid). unfold inserts_for in Hle |- *.
      simpl in Hle.
      destruct (sql_eq (prop r "_sourceId") sid) eqn:E.
      - apply sql_eq_eq in E. subst sid. unfold row.
        rewrite max_revision_insert by assumption. simpl in Hle. lia.
      - unfold row. now rewrite max_revision_insert_other. }
    exists (row :: rows). split; [|split; [|split]].
    + simpl. unfold then_ at 1. rewrite insert_ok by assumption.
      fold row. unfold then_ at 1. rewrite Hrun. unfold ret.
      now rewrite <- app_assoc.
    + constructor; [now exists (next_revision t r) | exact Hrows].
    + intros sid. change (row :: rows) with ([row] ++ rows)%list.
      rewrite revisions_app, Hrev. unfold row at 1. rewrite revisions_row.
      unfold inserts_for. simpl.
      destruct (sql_eq (prop r "_sourceId") sid) eqn:E.
      * apply sql_eq_eq in E. subst sid. unfold row.
        rewrite max_revision_insert by assumption. simpl length.
        unfold next_revision. simpl app. apply shift_revisions.
      * unfold row. now rewrite max_revision_insert_other.
    + intros Hnd0. rewrite <- app_assoc in Hnd. apply Hnd.
      now apply natural_ids_insert.
Qed.

(** C1: the trigger gives an inserted history row the largest revision
    stored for its [_sourceId] plus 1, counting no stored revision as 0;
    so, whatever the sequence of inserts, the rows inserted for one
    [_sourceId] get consecutive revisions in insertion order (1, 2, 3, ...
    when the table held none for it), and the pairs
    [(_sourceId, _revision)] of the table stay distinct.  The inserts
    succeed as long as the revisions fit an [INTEGER]. *)
Theorem revision_numbering (recs : list obj) (t : table) :
  Forall (fun r => nullish (prop r "_sourceId") = false) recs ->
  (forall sid, max_revision t sid + Z.of_nat (inserts_for sid recs) <= INT_MAX) ->
  (forall sid,
      (revisions t sid = [] /\ max_revision t sid = 0)
      \/ (In (max_revision t sid) (revisions t sid)
          /\ Forall (fun n => n <= max_revision t sid) (revisions t sid)))
  /\ exists rows,
       insert_all recs t = (inr rows, (t ++ rows)%list)
       /\ Forall2 (fun r row => exists n, row = set r "_revision" (VNum n)) recs rows
       /\ (forall sid,
             revisions rows sid
             = List.map (fun i => max_revision t sid + Z.of_nat i)
                        (seq 1 (inserts_for sid recs)))
       /\ (forall sid, revisions t sid = [] ->
                       revisions (t ++ rows)%list sid
                       = List.map Z.of_nat (seq 1 (inserts_for sid recs)))
       /\ (NoDup (natural_ids t) -> NoDup (natural_ids (t ++ rows)%list)).
Proof.
  intros Hall Hle. split.
  - intros sid. unfold max_revision.
    pose proof (sql_max_spec (revisions t sid)) as H.
    destruct (sql_max (revisions t sid)) as [m|]; simpl; [right | left]; auto.
  - destruct (insert_all_spec recs Hall t Hle) as (rows & Hrun & Hrows & Hrev & Hnd).
    exists rows. split; [exact Hrun|]. split; [exact Hrows|].
    split; [exact Hrev|]. split; [|exact Hnd].
    intros sid Hnone. rewrite revisions_app, Hnone, Hrev. simpl.
    unfold max_revision. rewrite Hnone. reflexivity.
Qed.

(** Three updates of source row 7, one of row 8 in between, from an empty
    history table. *)
Lemma revision_numbering_witness :
  exists rows,
    insert_all [[("_sourceId", VNum 7); ("x", VStr "a")];
                [("_sourceId", VNum 8); ("x", VStr "k")];
                [("_sourceId", VNum 7); ("x", VStr "b")];
                [("_sourceId", VNum 7); ("x", VStr "c")]] []
    = (inr rows, rows)
    /\ revisions rows (VNum 7) = [1; 2; 3]
    /\ revisions rows (VNum 8) = [1]
    /\ NoDup (natural_ids rows).
Proof.
  destruct (revision_numbering
              [[("_sourceId", VNum 7); ("x", VStr "a")];
               [("_sourceId", VNum 8); ("x", VStr "k")];
               [("_sourceId", VNum 7); ("x", VStr "b")];
               [("_sourceId", VNum 7); ("x", VStr "c")]] [])
    as (_ & rows & Hrun & _ & _ & Hrev & Hnd).
  - repeat constructor.
  - intros sid. unfold inserts_for, max_revision, INT_MAX. simpl.
    repeat match goal with
           | |- context [sql_eq ?a ?b] => destruct (sql_eq a b)
           end; simpl; lia.
  - exists rows. split; [exact Hrun|]. split; [|split].
    + exact (Hrev (VNum 7) eq_refl).
    + exact (Hrev (VNum 8) eq_refl).
    + apply Hnd. constructor.
Defined.
End RevisionSequence.

(** ** Attaching: the id attribute *)

Section Attach.
Import Sequelize HistoryPlugin.

(** The builder on an attribute of the model: the history model is
    defined. *)
Lemma createHistoryModel_own (model : Sequelize.model) (o : options)
  (idDef : obj) (r : registry) :
  get (attributes model) (idAttr o) = Some idDef ->
  createHistoryModel model o r
  = define {| def_name := modelName o;
              def_attrs := historyAttrs model o idDef;
              def_tableName := tableName o;
              def_timestamps := false;
              def_indexes := [["_sourceId"]] |} r.
Proof.
  intros Hid. unfold createHistoryModel, idAttrOf, has. now rewrite Hid.
Qed.

(** The builder on a name that is neither an attribute nor inherited: the
    error of line 46. *)
Lemma createHistoryModel_missing (model : Sequelize.model) (o : options)
  (r : registry) :
  get (attributes model) (idAttr o) = None ->
  existsb (String.eqb (idAttr o)) inherited = false ->
  createHistoryModel model o r
  = (inl (ConfigError ("Invalid id attribute for model "
                       ++ name model ++ ": " ++ idAttr o)), r).
Proof.
  intros Hid Hinh. unfold createHistoryModel, idAttrOf. now rewrite Hid, Hinh.
Qed.

(** Where [idAttr] is no name inherited from [Object.prototype]: when it
    names no attribute of the model the builder throws its configuration
    error at once, attach fails with it and the registry is as before;
    when it names an attribute the builder defines the history model, and
    attach returns it. *)
Lemma invalid_idAttr_fails (JSON_parse : string -> option value)
  (opts : obj) (model : Sequelize.model) (o : options) (r : registry) :
  validate opts (optionsSchema JSON_parse model) = inr o ->
  (~ In (idAttr o) (keys (attributes model)) ->
   ~ In (idAttr o) inherited ->
     createHistoryModel model o r
     = (inl (ConfigError ("Invalid id attribute for model "
                          ++ name model ++ ": " ++ idAttr o)), r)
     /\ attach JSON_parse opts model r
        = (inl (ConfigError ("Invalid id attribute for model "
                             ++ name model ++ ": " ++ idAttr o)), r))
  /\ (In (idAttr o) (keys (attributes model)) ->
      exists d,
        createHistoryModel model o r
        = (inr d, {| defined := (defined r ++ [d])%list;
                     associations := associations r;
                     afterUpdateHooks := afterUpdateHooks r |})
        /\ def_name d = modelName o
        /\ fst (attach JSON_parse opts model r) = inr d
        /\ defined (snd (attach JSON_parse opts model r))
           = (defined r ++ [d])%list).
Proof.
  intros Hval. unfold attach. rewrite Hval. split.
  - intros Hnin Hninh. apply get_None_iff in Hnin.
    assert (Hinh : existsb (String.eqb (idAttr o)) inherited = false).
    { destruct (existsb (String.eqb (idAttr o)) inherited) eqn:E; [|reflexivity].
      apply existsb_exists in E as (k & Hk & Heq).
      apply String.eqb_eq in Heq. subst k. contradiction. }
    unfold then_. rewrite (createHistoryModel_missing model o r Hnin Hinh).
    split; reflexivity.
  - intros Hin. destruct (get (attributes model) (idAttr o)) as [idDef|] eqn:E.
    + unfold then_. rewrite (createHistoryModel_own model o idDef r E).
      eexists. repeat split; reflexivity.
    + apply get_None_iff in E. contradiction.
Qed.

(** A model with the attributes [id] and [x], attached with
    [idAttr: "uuid"]. *)
Lemma invalid_idAttr_fails_witness :
  attach (fun _ => None) [("idAttr", VStr "uuid")]
    {| name := "Order"; Sequelize.tableName := "orders";
       attributes := [("id", [("type", VType INTEGER)]);
                      ("x", [("type", VType STRING)])] |}
    {| defined := []; associations := []; afterUpdateHooks := [] |}
  = (inl (ConfigError "Invalid id attribute for model Order: uuid"),
     {| defined := []; associations := []; afterUpdateHooks := [] |}).
Proof.
  refine (proj2 (proj1 (invalid_idAttr_fails (fun _ => None)
            [("idAttr", VStr "uuid")]
            {| name := "Order"; Sequelize.tableName := "orders";
               attributes := [("id", [("type", VType INTEGER)]);
                              ("x", [("type", VType STRING)])] |}
            {| track := ["id"; "x"]; idAttr := "uuid";
               modelName := "OrderHistory"; tableName := "orders_history" |}
            {| defined := []; associations := []; afterUpdateHooks := [] |}
            _) _ _)).
  - reflexivity.
  - simpl. intros [H|[H|[]]]; discriminate H.
  - unfold inherited. simpl. intuition discriminate.
Defined.

End Attach.

(** ** The post-update hook *)

Section Hook.
Import Sequelize HistoryPlugin Database.

Lemma includes_strings (track : list string) (f : string) :
  Lodash.includes (List.map VStr track) (VStr f) = true <-> In f track.
Proof.
  unfold Lodash.includes. rewrite existsb_exists. split.
  - intros (v & Hin & Heq). apply in_map_iff in Hin as (g & <- & Hg).
    simpl in Heq. apply String.eqb_eq in Heq. now subst.
  - intros Hin. exists (VStr f). split; [now apply in_map | apply value_eqb_refl].
Qed.

Lemma uniq_nil (l : list value) : Lodash.uniq l = [] <-> l = [].
Proof. destruct l; simpl; split; congruence. Qed.

Lemma filter_nil {A : Type} (p : A -> bool) (l : list A) :
  List.filter p l = [] <-> forall x, In x l -> p x = false.
Proof.
  induction l as [|a l IH]; simpl; [tauto|].
  destruct (p a) eqn:E.
  - split; [discriminate|]. intros H. specialize (H a (or_introl eq_refl)). congruence.
  - rewrite IH. split.
    + intros H x [<-|Hx]; auto.
    + intros H x Hx. apply H. now right.
Qed.

(** The intersection of line 167 is empty exactly when no changed field
    is tracked. *)
Lemma trackedChanges_nil (o : options) (inst : instance) :
  trackedChanges o inst = []
  <-> ~ exists f, In f (changedKeys inst) /\ In f (track o).
Proof.
  unfold trackedChanges, changed.
  destruct (changedKeys inst) as [|k ks] eqn:E.
  - simpl. split; auto. intros _ (f & [] & _).
  - unfold Lodash.intersection. rewrite uniq_nil, filter_nil. split.
    + intros H (f & Hf & Ht).
      specialize (H (VStr f) (in_map VStr _ _ Hf)).
      apply includes_strings in Ht. congruence.
    + intros H v Hv. apply in_map_iff in Hv as (f & <- & Hf).
      destruct (Lodash.includes (List.map VStr (track o)) (VStr f)) eqn:Hi; auto.
      exfalso. apply H. exists f. split; auto. now apply includes_strings.
Qed.


Lemma insert_shape (NEW : obj) (t : table) :
  match insert NEW t with
  | (inr row, t') => t' = (t ++ [row])%list
  | (inl _, t') => t' = t
  end.
Proof.
  unfold insert. destruct (insert_fn t NEW) as [e|row]; auto.
  destruct (nullish (prop row "_sourceId")); auto.
Qed.

(** A history write stores exactly one row, or fails and stores none. *)
Lemma writeHistory_shape hm sm (o : options) now inst (t : table) :
  match writeHistory hm sm o now inst t with
  | (inr row, t') => t' = (t ++ [row])%list
  | (inl _, t') => t' = t
  end.
Proof.
  unfold writeHistory, Orm.create.
  destruct (Orm.notNull _ _); [apply insert_shape | reflexivity].
Qed.



End Hook.

(** ** The history record *)

Section Record.
Import Sequelize HistoryPlugin Database.

Lemma get_filter_keys {A : Type} (p : string -> bool) (o : list (string * A)) k :
  get (List.filter (fun kv => p (fst kv)) o) k = if p k then get o k else None.
Proof.
  induction o as [|[k' v] o IH]; simpl; [now destruct (p k)|].
  destruct (p k') eqn:E; simpl; destruct (String.eqb_spec k' k) as [->|Hne]; auto.
  - now rewrite E.
  - rewrite IH, E. reflexivity.
Qed.



End Record.

(** ** Option resolution *)

Section Options.
Import Sequelize HistoryPlugin.

Lemma string_inr (v : value) (s : string) :
  Joi.string_ v = inr s -> v = VStr s.
Proof.
  destruct v; simpl; try discriminate.
  destruct (String.eqb _ _); [discriminate|]. congruence.
Qed.

Lemma items_string_inr (l : list value) (ss : list string) :
  Joi.items Joi.string_ l = inr ss -> l = List.map VStr ss.
Proof.
  revert ss. induction l as [|v l IH]; intros ss; simpl.
  - intros H. injection H as <-. reflexivity.
  - destruct (Joi.string_ v) as [e|s] eqn:E; [discriminate|].
    destruct (Joi.items Joi.string_ l) as [e|ss'] eqn:E'; [discriminate|].
    intros H. injection H as <-. simpl.
    apply string_inr in E. rewrite (IH ss' eq_refl). congruence.
Qed.

Lemma string_inl (v : value) (e : exn) :
  Joi.string_ v = inl e -> e = ValidationError.
Proof.
  destruct v; simpl; try congruence.
  destruct (String.eqb _ _); congruence.
Qed.

Lemma items_string_not_string (l : list value) (x : value) :
  In x l -> (forall s, x <> VStr s) ->
  Joi.items Joi.string_ l = inl ValidationError.
Proof.
  intros Hin Hx. induction l as [|v l IH]; [destruct Hin|]. simpl.
  destruct (Joi.string_ v) as [e|s] eqn:E.
  - now rewrite (string_inl _ _ E).
  - destruct Hin as [->|Hin].
    + apply string_inr in E. now destruct (Hx s).
    + now rewrite (IH Hin).
Qed.

Lemma default_string_inr (d : string) (v : option value) (s : string) :
  Joi.default_ d Joi.string_ v = inr s ->
  match v with
  | None | Some VUndefined => s = d
  | Some w => w = VStr s
  end.
Proof.
  destruct v as [w|]; simpl; [|congruence].
  destruct w; simpl; try discriminate; try congruence.
  destruct (String.eqb _ _); [discriminate|]. congruence.
Qed.

(** C5, as stated, fails: a [track] supplied as the single name [x] is
    resolved to the one-element list holding it, which is not the value
    supplied. *)
Lemma track_single_value_wrapped :
  validate [("track", VStr "x")] (optionsSchema (fun _ => None) Samples.Order)
  = inr {| track := ["x"]; idAttr := "id"; modelName := "OrderHistory";
           tableName := "orders_history" |}
  /\ VArr (List.map VStr ["x"]) <> VStr "x".
Proof. split; [reflexivity | discriminate]. Qed.

(** C5, amended: when option resolution succeeds, [track] is the supplied
    [track] when that is an array, the one-element list of the supplied
    value when it is not an array (joi's [single]; a string joi parses as
    the JSON text of an array counts as that array), and all attribute
    names of the model when none is supplied; [idAttr], [modelName] and
    [tableName] are the supplied strings, else ["id"], the model name
    followed by [History] and the table name followed by [_history];
    resolution fails with a validation error when an entry of a supplied
    [track] array is not a string; with no option supplied it yields the
    defaults. *)
Theorem options_resolution (JSON_parse : string -> option value)
  (model : Sequelize.model) (opts : obj) :
  (forall o, validate opts (optionsSchema JSON_parse model) = inr o ->
     match get opts "track" with
     | None | Some VUndefined => track o = keys (attributes model)
     | Some v =>
         match Joi.coerce JSON_parse v with
         | VArr l => l = List.map VStr (track o)
         | w => [w] = List.map VStr (track o)
         end
     end
     /\ match get opts "idAttr" with
        | None | Some VUndefined => idAttr o = "id"
        | Some v => v = VStr (idAttr o)
        end
     /\ match get opts "modelName" with
        | None | Some VUndefined => modelName o = name model ++ "History"
        | Some v => v = VStr (modelName o)
        end
     /\ match get opts "tableName" with
        | None | Some VUndefined =>
            tableName o = Sequelize.tableName model ++ "_history"
        | Some v => v = VStr (tableName o)
        end)
  /\ (forall l x, get opts "track" = Some (VArr l) -> In x l ->
                  (forall s, x <> VStr s) ->
                  validate opts (optionsSchema JSON_parse model)
                  = inl ValidationError)
  /\ validate [] (optionsSchema JSON_parse model)
     = inr {| track := keys (attributes model);
              idAttr := "id";
              modelName := name model ++ "History";
              tableName := Sequelize.tableName model ++ "_history" |}.
Proof.
  split; [|split; [|reflexivity]].
  - intros o. unfold validate, optionsSchema; simpl.
    destruct (Joi.default_ (keys (attributes model))
                (Joi.array JSON_parse Joi.string_ true) (get opts "track"))
      as [e|t] eqn:Et; [discriminate|].
    destruct (Joi.default_ "id" Joi.string_ (get opts "idAttr"))
      as [e|i] eqn:Ei; [discriminate|].
    destruct (Joi.default_ (name model ++ "History") Joi.string_
                (get opts "modelName")) as [e|m] eqn:Em; [discriminate|].
    destruct (Joi.default_ (Sequelize.tableName model ++ "_history") Joi.string_
                (get opts "tableName")) as [e|tn] eqn:Etn; [discriminate|].
    destruct (forallb _ _); [|discriminate].
    intros H. injection H as <-. simpl.
    apply default_string_inr in Ei, Em, Etn.
    repeat split; auto.
    destruct (get opts "track") as [v|]; simpl in Et; [|congruence].
    assert (Hv : Joi.array JSON_parse Joi.string_ true v = inr t ->
                 match Joi.coerce JSON_parse v with
                 | VArr l => l = List.map VStr t
                 | w => [w] = List.map VStr t
                 end).
    { unfold Joi.array.
      destruct (Joi.coerce JSON_parse v); intros H;
        apply items_string_inr in H; exact H. }
    destruct v; try (apply Hv; exact Et). congruence.
  - intros l x Hl Hin Hx. unfold validate, optionsSchema; simpl.
    rewrite Hl. simpl. unfold Joi.array. simpl.
    now rewrite (items_string_not_string l x Hin Hx).
Qed.

(** The factory called with the names [x] and [y], on the sample model. *)
Lemma options_resolution_witness :
  [VStr "x"; VStr "y"] = List.map VStr (track Samples.trackXY)
  /\ idAttr Samples.trackXY = "id"
  /\ modelName Samples.trackXY = "OrderHistory"
  /\ tableName Samples.trackXY = "orders_history".
Proof.
  exact (proj1 (options_resolution (fun _ => None) Samples.Order
                  (pluginOptions [VStr "x"; VStr "y"]))
               Samples.trackXY eq_refl).
Defined.
End Options.

(** ** Restore *)

Section Restore.
Import Sequelize HistoryPlugin Database.









(** The hook leaves the source table alone. *)
Lemma hook_source hm sm (o : options) now inst (w : world) :
  source (snd (hook hm sm o now inst w)) = source w.
Proof.
  unfold hook, then_, on_history.
  destruct (afterUpdate hm sm o now inst (history w)) as [[e|r] t]; reflexivity.
Qed.



End Restore.

(** ** Tracked fields named like meta fields *)

Section Collisions.
Import Sequelize HistoryPlugin.

Lemma metaAttrs_NoDup (idDef : obj) : NoDup (keys (metaAttrs idDef)).
Proof.
  simpl. repeat constructor; rewrite list_elem_of_In; simpl; intuition discriminate.
Qed.

Lemma metaAttrs_props (idDef : obj) k (metaProps : obj) :
  get (metaAttrs idDef) k = Some (VObj metaProps) -> NoDup (keys metaProps).
Proof.
  unfold metaAttrs. cbn [get].
  destruct (String.eqb "_id" k);
    [intros H; injection H as <-; simpl; repeat constructor;
     rewrite list_elem_of_In; simpl; intuition discriminate|].
  destruct (String.eqb "_sourceId" k);
    [intros H; injection H as <-; simpl; repeat constructor;
     rewrite list_elem_of_In; simpl; intuition discriminate|].
  destruct (String.eqb "_revision" k);
    [intros H; injection H as <-; simpl; repeat constructor;
     rewrite list_elem_of_In; simpl; intuition discriminate|].
  destruct (String.eqb "_user" k); [discriminate|].
  destruct (String.eqb "_date" k); [discriminate|].
  destruct (String.eqb "_changes" k); discriminate.
Qed.

(** C9, as stated, fails: a tracked attribute named [_revision] is not
    replaced by the meta definition; the two are merged, and the
    [allowNull: false] of the tracked definition stays. *)
Lemma tracked_definition_not_overwritten :
  get (historyAttrs Samples.Document Samples.trackRevision
         [("type", VType INTEGER); ("primaryKey", VBool true)]) "_revision"
  = Some (VObj [("type", VType INTEGER); ("allowNull", VBool false);
                ("unique", VStr "naturalId")])
  /\ get (historyAttrs Samples.Document Samples.trackRevision
            [("type", VType INTEGER); ("primaryKey", VBool true)]) "_revision"
     <> get (metaAttrs [("type", VType INTEGER); ("primaryKey", VBool true)])
            "_revision".
Proof. split; [reflexivity | discriminate]. Qed.

(** C9, amended: the meta fields are merged after the tracked fields and
    no collision error is raised (the builder fails on a bad [idAttr]
    only).  For a tracked attribute named like a meta field: [_user],
    [_date] and [_changes], whose meta definitions are bare types,
    replace the tracked definition; for [_id], [_sourceId] and
    [_revision] the meta definition is merged into the tracked one
    property by property: a property the meta definition sets to a
    scalar or a type takes the meta value, and every other property of
    the tracked definition (its auto-increment marker apart) stays.  In
    the written record [_date] always overwrites a tracked previous value
    of that name, [_sourceId] does when the id value is a scalar, and
    [_changes] does unless that previous value is an array or a string. *)
Theorem meta_fields_take_precedence (model : Sequelize.model) (o : options)
  (idDef : obj) (now : Z) (inst : instance) :
  (forall k,
      get (trackedAttrs model o) k
      = option_map (fun attr => VObj (Lodash.omit attr "autoIncrement"))
                   (if in_dec string_dec k (track o)
                    then get (attributes model) k else None))
  /\ get (historyAttrs model o idDef) "_user" = Some (VType STRING)
  /\ get (historyAttrs model o idDef) "_date" = Some (VType DATE)
  /\ get (historyAttrs model o idDef) "_changes" = Some (VType (ARRAY STRING))
  /\ (forall k metaProps,
        get (metaAttrs idDef) k = Some (VObj metaProps) ->
        exists props,
          get (historyAttrs model o idDef) k = Some (VObj props)
          /\ (forall p v, get metaProps p = Some v -> Lodash.assigned v = true ->
                          get props p = Some v)
          /\ (forall p, get metaProps p = None ->
                        get props p
                        = match get (trackedAttrs model o) k with
                          | Some (VObj d) => get d p
                          | _ => None
                          end))
  /\ (forall r, get (attributes model) (idAttr o) = Some idDef ->
                exists d, fst (createHistoryModel model o r) = inr d
                          /\ def_attrs d = historyAttrs model o idDef)
  /\ prop (historyRecord o now inst) "_date" = VDate now
  /\ (Lodash.assigned (prop (dataValues inst) (idAttr o)) = true ->
      prop (historyRecord o now inst) "_sourceId"
      = prop (dataValues inst) (idAttr o))
  /\ (Lodash.arrayLike
        (get (Lodash.pick (_previousDataValues inst) (track o)) "_changes") = false ->
      prop (historyRecord o now inst) "_changes" = changed inst).
Proof.
  pose proof (metaAttrs_NoDup idDef) as Hnd.
  split; [|split; [|split; [|split; [|split; [|split; [|split; [|split]]]]]]].
  - intros k. unfold trackedAttrs. now rewrite get_mapValues, get_pick.
  - unfold historyAttrs.
    now rewrite (get_merge_in _ (metaAttrs idDef) "_user" (VType STRING) Hnd eq_refl).
  - unfold historyAttrs.
    now rewrite (get_merge_in _ (metaAttrs idDef) "_date" (VType DATE) Hnd eq_refl).
  - unfold historyAttrs.
    now rewrite (get_merge_in _ (metaAttrs idDef) "_changes"
                   (VType (ARRAY STRING)) Hnd eq_refl).
  - intros k metaProps Hk. pose proof (metaAttrs_props idDef k metaProps Hk) as Hp.
    unfold historyAttrs.
    rewrite (get_merge_in _ (metaAttrs idDef) k (VObj metaProps) Hnd Hk).
    rewrite mergeValue_obj. eexists. split; [reflexivity|]. split.
    + intros p v Hv Ha. rewrite (get_merge_in _ metaProps p v Hp Hv).
      now apply mergeValue_assigned.
    + intros p Hnone. rewrite get_merge_notin by assumption.
      destruct (get (trackedAttrs model o) k) as [[]|]; reflexivity.
  - intros r Hid. rewrite (createHistoryModel_own model o idDef r Hid). eexists.
    split; reflexivity.
  - set (src := [("_sourceId", prop (dataValues inst) (idAttr o));
                 ("_date", VDate now); ("_changes", changed inst)]).
    unfold prop, historyRecord. fold src.
    rewrite (get_merge_in _ src "_date" (VDate now)); [reflexivity| |reflexivity].
    simpl. repeat constructor; rewrite list_elem_of_In; simpl; intuition discriminate.
  - intros Ha.
    set (src := [("_sourceId", prop (dataValues inst) (idAttr o));
                 ("_date", VDate now); ("_changes", changed inst)]).
    unfold prop at 1. unfold historyRecord. fold src.
    rewrite (get_merge_in _ src "_sourceId" (prop (dataValues inst) (idAttr o)));
      [now rewrite mergeValue_assigned| |reflexivity].
    simpl. repeat constructor; rewrite list_elem_of_In; simpl; intuition discriminate.
  - intros Hch.
    set (src := [("_sourceId", prop (dataValues inst) (idAttr o));
                 ("_date", VDate now); ("_changes", changed inst)]).
    unfold prop at 1. unfold historyRecord. fold src.
    rewrite (get_merge_in _ src "_changes" (changed inst)); [| |reflexivity].
    + unfold changed. destruct (changedKeys inst) as [|c cs]; [reflexivity|].
      rewrite mergeValue_arr.
      destruct (get _ "_changes") as [[]|]; try discriminate Hch;
        now rewrite mergeItems_strings.
    + simpl. repeat constructor; rewrite list_elem_of_In; simpl;
        intuition discriminate.
Qed.

(** The sample model with a required [_revision] field: the merged
    definition has the meta type and keeps [allowNull: false]. *)
Lemma meta_fields_take_precedence_witness :
  exists props,
    get (historyAttrs Samples.Document Samples.trackRevision
           [("type", VType INTEGER); ("primaryKey", VBool true)]) "_revision"
    = Some (VObj props)
    /\ get props "type" = Some (VType INTEGER)
    /\ get props "allowNull" = Some (VBool false).
Proof.
  destruct (meta_fields_take_precedence Samples.Document Samples.trackRevision
              [("type", VType INTEGER); ("primaryKey", VBool true)]
              0 Samples.updatedZ)
    as (_ & _ & _ & _ & Hmerged & _).
  destruct (Hmerged "_revision"
              [("type", VType INTEGER); ("unique", VStr "naturalId")] eq_refl)
    as (props & Hget & Hmeta & Hkept).
  exists props. split; [exact Hget|]. split.
  - apply Hmeta; reflexivity.
  - rewrite Hkept; reflexivity.
Defined.
End Collisions.

(** ** The sample model at work *)

Section Examples.
Import Sequelize HistoryPlugin Database.

(** The builder on the sample model: the tracked fields, then the six
    meta fields. *)
Example sample_history_attrs :
  keys (def_attrs Samples.OrderHistory)
  = ["x"; "y"; "_id"; "_sourceId"; "_revision"; "_user"; "_date"; "_changes"].
Proof. reflexivity. Qed.

(** An update of [x] and [z] writes one row: the previous [x] and [y], the
    source id, the date, the changed names and revision 1. *)
Example sample_history_row :
  afterUpdate Samples.OrderHistory Samples.Order Samples.trackXY 100
              Samples.updatedXZ []
  = (inr (Some Samples.firstRevision), [Samples.firstRevision]).
Proof. reflexivity. Qed.

(** Restoring that row writes history in its turn: the source update
    changes the tracked [x], so the hook stores a second revision. *)
Example sample_restore_writes_history :
  List.map (fun row => prop row "_revision")
           (history (snd (restore Samples.OrderHistory Samples.Order
                                  Samples.trackXY 200 Samples.firstRevision
                                  Samples.afterUpdateXZ)))
  = [VNum 1; VNum 2].
Proof. reflexivity. Qed.

(** The factory with no argument tracks nothing: the empty argument list
    becomes the [track] list. *)
Example sample_no_argument :
  validate (pluginOptions []) (optionsSchema (fun _ => None) Samples.Order)
  = inr {| track := []; idAttr := "id"; modelName := "OrderHistory";
           tableName := "orders_history" |}.
Proof. reflexivity. Qed.
End Examples.

(** * Further properties of the plugin *)

(** ** The factory and the options it keeps *)

Section Factory.
Import Sequelize HistoryPlugin.

Lemma string_ok (s : string) : s <> "" -> Joi.string_ (VStr s) = inr s.
Proof.
  intros H. simpl. destruct (String.eqb_spec s ""); [contradiction | reflexivity].
Qed.

Lemma string_inr_nonempty (v : value) (s : string) :
  Joi.string_ v = inr s -> s <> "".
Proof.
  destruct v; simpl; try discriminate.
  destruct (String.eqb_spec s0 ""); [discriminate|]. congruence.
Qed.

Lemma items_strings_ok (ss : list string) :
  Forall (fun s => s <> "") ss ->
  Joi.items Joi.string_ (List.map VStr ss) = inr ss.
Proof.
  induction 1 as [|s ss Hs _ IH]; [reflexivity|].
  cbn [List.map Joi.items]. now rewrite (string_ok s Hs), IH.
Qed.

Lemma items_string_nonempty (l : list value) (ss : list string) :
  Joi.items Joi.string_ l = inr ss -> Forall (fun s => s <> "") ss.
Proof.
  revert ss. induction l as [|v l IH]; intros ss; simpl.
  - intros H. injection H as <-. constructor.
  - destruct (Joi.string_ v) as [e|s] eqn:E; [discriminate|].
    destruct (Joi.items Joi.string_ l) as [e|ss'] eqn:E'; [discriminate|].
    intros H. injection H as <-. constructor.
    + now apply string_inr_nonempty in E.
    + now apply IH.
Qed.

Lemma items_string_inl (l : list value) (e : exn) :
  Joi.items Joi.string_ l = inl e -> e = ValidationError.
Proof.
  induction l as [|v l IH]; simpl; [discriminate|].
  destruct (Joi.string_ v) as [e'|s] eqn:E.
  - intros H. injection H as <-. now apply string_inl in E.
  - destruct (Joi.items Joi.string_ l) as [e'|ss]; [|discriminate].
    intros H. injection H as <-. now apply IH.
Qed.

Lemma array_string_inr (P : string -> option value) (v : value) (t : list string) :
  Joi.array P Joi.string_ true v = inr t -> Forall (fun s => s <> "") t.
Proof.
  unfold Joi.array. destruct (Joi.coerce P v); apply items_string_nonempty.
Qed.

Lemma array_string_inl (P : string -> option value) (v : value) (e : exn) :
  Joi.array P Joi.string_ true v = inl e -> e = ValidationError.
Proof.
  unfold Joi.array. destruct (Joi.coerce P v); apply items_string_inl.
Qed.

Lemma default_string_nonempty (d : string) (v : option value) (s : string) :
  d <> "" -> Joi.default_ d Joi.string_ v = inr s -> s <> "".
Proof.
  intros Hd. destruct v as [w|]; simpl; [|congruence].
  destruct w; try apply string_inr_nonempty; congruence.
Qed.

Lemma default_string_inl (d : string) (v : option value) (e : exn) :
  Joi.default_ d Joi.string_ v = inl e -> e = ValidationError.
Proof.
  destruct v as [w|]; simpl; [|discriminate].
  destruct w; try apply string_inl; discriminate.
Qed.

Lemma append_nonempty (s t : string) : t <> "" -> s ++ t <> "".
Proof. destruct s; simpl; [auto | discriminate]. Qed.

(** What a successful validation went through. *)
Lemma validate_inr (P : string -> option value) (model : Sequelize.model)
  (opts : obj) (o : options) :
  validate opts (optionsSchema P model) = inr o ->
  Joi.default_ (keys (attributes model)) (Joi.array P Joi.string_ true)
               (get opts "track") = inr (track o)
  /\ Joi.default_ "id" Joi.string_ (get opts "idAttr") = inr (idAttr o)
  /\ Joi.default_ (name model ++ "History") Joi.string_ (get opts "modelName")
     = inr (modelName o)
  /\ Joi.default_ (Sequelize.tableName model ++ "_history") Joi.string_
                  (get opts "tableName") = inr (tableName o)
  /\ forallb (fun k => existsb (String.eqb k) schema_keys) (keys opts) = true.
Proof.
  unfold validate, optionsSchema; cbn [track_rule idAttr_rule modelName_rule tableName_rule].
  destruct (Joi.default_ (keys (attributes model)) _ _) as [e|t]; [discriminate|].
  destruct (Joi.default_ "id" _ _) as [e|i]; [discriminate|].
  destruct (Joi.default_ (name model ++ "History") _ _) as [e|m]; [discriminate|].
  destruct (Joi.default_ (Sequelize.tableName model ++ "_history") _ _) as [e|tn];
    [discriminate|].
  destruct (forallb _ _); [|discriminate].
  intros H. injection H as <-. repeat split; reflexivity.
Qed.

(** Every failure of validation is a validation error. *)
Lemma validate_inl (P : string -> option value) (model : Sequelize.model)
  (opts : obj) (e : exn) :
  validate opts (optionsSchema P model) = inl e -> e = ValidationError.
Proof.
  unfold validate, optionsSchema; cbn [track_rule idAttr_rule modelName_rule tableName_rule].
  destruct (Joi.default_ (keys (attributes model)) _ (get opts "track"))
    as [e1|t] eqn:E1.
  { intros H. injection H as <-. destruct (get opts "track") as [w|]; [|discriminate].
    simpl in E1. destruct w; try (now apply array_string_inl in E1); discriminate. }
  destruct (Joi.default_ "id" _ _) as [e2|i] eqn:E2.
  { intros H. injection H as <-. now apply default_string_inl in E2. }
  destruct (Joi.default_ (name model ++ "History") _ _) as [e3|m] eqn:E3.
  { intros H. injection H as <-. now apply default_string_inl in E3. }
  destruct (Joi.default_ (Sequelize.tableName model ++ "_history") _ _)
    as [e4|tn] eqn:E4.
  { intros H. injection H as <-. now apply default_string_inl in E4. }
  destruct (forallb _ _); [discriminate|]. congruence.
Qed.

(** X1: the three ways of calling the factory agree: a list of names as
    arguments, one array of names (further arguments are ignored) and an
    options object with that array as [track] start from the same options,
    and for names that are not empty these resolve, on every model, to
    tracking exactly these names with the default [idAttr], model name and
    table name. *)
Theorem factory_call_shapes (P : string -> option value) (model : Sequelize.model)
  (names : list string) (rest : list value) :
  Forall (fun s => s <> "") names ->
  pluginOptions (List.map VStr names) = [("track", VArr (List.map VStr names))]
  /\ pluginOptions (VArr (List.map VStr names) :: rest)
     = [("track", VArr (List.map VStr names))]
  /\ pluginOptions (VObj [("track", VArr (List.map VStr names))] :: rest)
     = [("track", VArr (List.map VStr names))]
  /\ validate [("track", VArr (List.map VStr names))] (optionsSchema P model)
     = inr {| track := names;
              idAttr := "id";
              modelName := name model ++ "History";
              tableName := Sequelize.tableName model ++ "_history" |}.
Proof.
  intros Hnames. split; [|split; [|split]].
  - destruct names; reflexivity.
  - reflexivity.
  - reflexivity.
  - unfold validate, optionsSchema;
      cbn [track_rule idAttr_rule modelName_rule tableName_rule].
    change (get [("track", VArr (List.map VStr names))] "track")
      with (Some (VArr (List.map VStr names))).
    change (get [("track", VArr (List.map VStr names))] "idAttr")
      with (@None value).
    change (get [("track", VArr (List.map VStr names))] "modelName")
      with (@None value).
    change (get [("track", VArr (List.map VStr names))] "tableName")
      with (@None value).
    cbn [Joi.default_]. unfold Joi.array. cbn [Joi.coerce].
    rewrite (items_strings_ok names Hnames). reflexivity.
Qed.

(** The factory called with the names [x] and [y] on the sample model. *)
Lemma factory_call_shapes_witness :
  validate (pluginOptions [VStr "x"; VStr "y"])
           (optionsSchema (fun _ => None) Samples.Order)
  = inr Samples.trackXY.
Proof.
  refine (eq_trans _ (proj2 (proj2 (proj2
            (factory_call_shapes (fun _ => None) Samples.Order ["x"; "y"] [] _))))).
  - reflexivity.
  - repeat constructor; discriminate.
Defined.
End Factory.

Section Closure.
Import Sequelize HistoryPlugin.

(** X2: the factory called with no argument takes the empty argument list
    as the [track] list, not the default: the options resolve to tracking
    nothing, and with nothing tracked the hook never writes a history row,
    whatever the update changed. *)
Theorem no_argument_tracks_nothing (P : string -> option value)
  (model sm : Sequelize.model) (hm : definition) (now : Z) (inst : instance)
  (t : Database.table) :
  (forall o, track o = [] -> afterUpdate hm sm o now inst t = (inr None, t))
  /\ exists o,
       validate (pluginOptions []) (optionsSchema P model) = inr o
       /\ track o = []
       /\ afterUpdate hm sm o now inst t = (inr None, t).
Proof.
  assert (Hnone : forall o, track o = [] ->
                            afterUpdate hm sm o now inst t = (inr None, t)).
  { intros o Ho. unfold afterUpdate.
    assert (E : trackedChanges o inst = []).
    { apply trackedChanges_nil. rewrite Ho. intros (f & _ & []). }
    now rewrite E. }
  split; [exact Hnone|].
  exists {| track := []; idAttr := "id"; modelName := name model ++ "History";
            tableName := Sequelize.tableName model ++ "_history" |}.
  split; [reflexivity|]. split; [reflexivity|]. now apply Hnone.
Qed.

(** X3: validated options validate again to themselves, on any model.  The
    attach function stores the validated options in the factory's closure,
    so after it ran on a first model (whose attribute names are not
    empty), running it on a second model builds that model's history with
    the first model's resolved options: its tracked names, its history
    model name and its table name. *)
Theorem second_attach_keeps_first_options (P P' : string -> option value)
  (opts : obj) (m1 m2 : Sequelize.model) (o : options) (r : registry) :
  Forall (fun k => k <> "") (keys (attributes m1)) ->
  validate opts (optionsSchema P m1) = inr o ->
  validate (optionsObject o) (optionsSchema P' m2) = inr o
  /\ closureAfter P opts m1 = optionsObject o
  /\ attach P' (closureAfter P opts m1) m2 r
     = (createHistoryModel m2 o
        >>= (fun h => associate h m2)
        >>= (fun h => addHooks h m2 o)) r.
Proof.
  intros Hattrs Hval.
  destruct (validate_inr P m1 opts o Hval) as (Ht & Hi & Hm & Htn & _).
  assert (Htrack : Forall (fun s => s <> "") (track o)).
  { destruct (get opts "track") as [w|]; simpl in Ht.
    - destruct w; try (now apply array_string_inr in Ht);
        injection Ht as <-; exact Hattrs.
    - injection Ht as <-. exact Hattrs. }
  apply default_string_nonempty in Hi; [|discriminate].
  apply default_string_nonempty in Hm; [|apply append_nonempty; discriminate].
  apply default_string_nonempty in Htn; [|apply append_nonempty; discriminate].
  assert (Hagain : validate (optionsObject o) (optionsSchema P' m2) = inr o).
  { unfold validate, optionsSchema, optionsObject;
      cbn [track_rule idAttr_rule modelName_rule tableName_rule].
    change (get _ "track") with (Some (VArr (List.map VStr (track o)))).
    change (get _ "idAttr") with (Some (VStr (idAttr o))).
    change (get _ "modelName") with (Some (VStr (modelName o))).
    change (get _ "tableName") with (Some (VStr (tableName o))).
    cbn [Joi.default_]. unfold Joi.array. cbn [Joi.coerce].
    rewrite (items_strings_ok _ Htrack).
    rewrite (string_ok _ Hi), (string_ok _ Hm), (string_ok _ Htn).
    destruct o; reflexivity. }
  assert (Hclosure : closureAfter P opts m1 = optionsObject o)
    by (unfold closureAfter; now rewrite Hval).
  split; [exact Hagain|]. split; [exact Hclosure|].
  unfold attach. now rewrite Hclosure, Hagain.
Qed.

(** The factory called with [x] and [y], attached to the sample model and
    then to the model with a [_revision] field. *)
Lemma second_attach_keeps_first_options_witness :
  validate (closureAfter (fun _ => None) (pluginOptions [VStr "x"; VStr "y"])
                         Samples.Order)
           (optionsSchema (fun _ => None) Samples.Document)
  = inr Samples.trackXY.
Proof.
  destruct (second_attach_keeps_first_options (fun _ => None) (fun _ => None)
              (pluginOptions [VStr "x"; VStr "y"]) Samples.Order Samples.Document
              Samples.trackXY
              {| defined := []; associations := []; afterUpdateHooks := [] |})
    as (Hagain & Hclosure & _).
  - repeat constructor; discriminate.
  - reflexivity.
  - rewrite Hclosure. exact Hagain.
Defined.

(** X4: options that are malformed fail the attach with a validation error
    before anything is defined: a key other than [track], [idAttr],
    [modelName] and [tableName], or a supplied [idAttr], [modelName] or
    [tableName] that is not a non-empty string.  The registry is as
    before. *)
Theorem malformed_options_fail_attach (P : string -> option value)
  (model : Sequelize.model) (opts : obj) (r : registry) :
  ((exists k, In k (keys opts) /\ ~ In k schema_keys)
   \/ (exists key v, In key ["idAttr"; "modelName"; "tableName"]
                     /\ get opts key = Some v
                     /\ v <> VUndefined
                     /\ forall s, s <> "" -> v <> VStr s)) ->
  validate opts (optionsSchema P model) = inl ValidationError
  /\ attach P opts model r = (inl ValidationError, r).
Proof.
  intros Hbad.
  assert (Hfail : validate opts (optionsSchema P model) = inl ValidationError).
  { destruct (validate opts (optionsSchema P model)) as [e|o] eqn:E.
    - now rewrite (validate_inl P model opts e E).
    - exfalso. destruct (validate_inr P model opts o E) as (_ & Hi & Hm & Htn & Hkeys).
      destruct Hbad as [(k & Hk & Hunknown)|(key & v & Hkey & Hget & Hv & Hstr)].
      + rewrite forallb_forall in Hkeys. specialize (Hkeys k Hk).
        apply existsb_exists in Hkeys as (k' & Hk' & Heq).
        apply String.eqb_eq in Heq. subst k'. contradiction.
      + assert (Hone : forall d s, d <> "" ->
                  Joi.default_ d Joi.string_ (get opts key) = inr s -> False).
        { intros d s Hd Hs. pose proof (default_string_nonempty d _ s Hd Hs) as Hne.
          apply default_string_inr in Hs. rewrite Hget in Hs.
          destruct v; try contradiction; try discriminate.
          injection Hs as ->. now apply (Hstr s). }
        destruct Hkey as [<-|[<-|[<-|[]]]].
        * apply (Hone "id" (idAttr o)); [discriminate | exact Hi].
        * apply (Hone (name model ++ "History") (modelName o));
            [apply append_nonempty; discriminate | exact Hm].
        * apply (Hone (Sequelize.tableName model ++ "_history") (tableName o));
            [apply append_nonempty; discriminate | exact Htn]. }
  split; [exact Hfail|]. unfold attach. now rewrite Hfail.
Qed.

(** A misspelt key, and an [idAttr] that is a number. *)
Lemma malformed_options_fail_attach_witness :
  attach (fun _ => None) [("tracked", VArr [VStr "x"])] Samples.Order
         {| defined := []; associations := []; afterUpdateHooks := [] |}
  = (inl ValidationError,
     {| defined := []; associations := []; afterUpdateHooks := [] |})
  /\ validate [("idAttr", VNum 7)] (optionsSchema (fun _ => None) Samples.Order)
     = inl ValidationError.
Proof.
  split.
  - apply (malformed_options_fail_attach (fun _ => None) Samples.Order
             [("tracked", VArr [VStr "x"])]).
    left. exists "tracked". split; [now left|].
    simpl. intros [H|[H|[H|[H|[]]]]]; discriminate H.
  - apply (malformed_options_fail_attach (fun _ => None) Samples.Order
             [("idAttr", VNum 7)]
             {| defined := []; associations := []; afterUpdateHooks := [] |}).
    right. exists "idAttr", (VNum 7). split; [now left|].
    split; [reflexivity|]. split; discriminate.
Defined.
End Closure.

(** ** The history model and what is stored in it *)

Section HistoryModel.
Import Sequelize HistoryPlugin Database.

Lemma get_In {A : Type} (o : list (string * A)) k v :
  get o k = Some v -> In (k, v) o.
Proof.
  induction o as [|[k' w] o IH]; simpl; [discriminate|].
  destruct (String.eqb_spec k' k) as [->|_].
  - intros H. injection H as ->. now left.
  - intros H. right. now apply IH.
Qed.

Lemma metaAttrs_other (idDef : obj) k :
  ~ In k metaNames -> get (metaAttrs idDef) k = None.
Proof.
  intros Hk. apply get_None_iff. exact Hk.
Qed.

(** A name that is no meta name is defined as the tracked attribute is. *)
Lemma historyAttrs_other (model : Sequelize.model) (o : options) (idDef : obj) k :
  ~ In k metaNames ->
  get (historyAttrs model o idDef) k
  = option_map (fun attr => VObj (Lodash.omit attr "autoIncrement"))
               (if in_dec string_dec k (track o)
                then get (attributes model) k else None).
Proof.
  intros Hk. unfold historyAttrs.
  rewrite get_merge_notin by now apply metaAttrs_other.
  unfold trackedAttrs. now rewrite get_mapValues, get_pick.
Qed.

Lemma trackedAttrs_unmarked (model : Sequelize.model) (o : options) k :
  match get (trackedAttrs model o) k with
  | Some (VObj d) => get d "autoIncrement" = None
  | Some _ => False
  | None => True
  end.
Proof.
  unfold trackedAttrs. rewrite get_mapValues.
  match goal with |- context [option_map _ ?x] => destruct x end; simpl; auto.
  apply get_omit_eq.
Qed.

(** The meta attribute that is an object, merged over the tracked one. *)
Lemma historyAttrs_meta_obj (model : Sequelize.model) (o : options) (idDef : obj)
  k (metaProps : obj) :
  get (metaAttrs idDef) k = Some (VObj metaProps) ->
  get (historyAttrs model o idDef) k
  = Some (VObj (Lodash.merge
                  (match get (trackedAttrs model o) k with
                   | Some (VObj d) => d
                   | _ => []
                   end) metaProps)).
Proof.
  intros Hk. unfold historyAttrs.
  rewrite (get_merge_in _ (metaAttrs idDef) k (VObj metaProps)
             (metaAttrs_NoDup idDef) Hk).
  apply mergeValue_obj.
Qed.

Lemma historyAttrs_meta_type (model : Sequelize.model) (o : options) (idDef : obj)
  k (t : datatype) :
  get (metaAttrs idDef) k = Some (VType t) ->
  get (historyAttrs model o idDef) k = Some (VType t).
Proof.
  intros Hk. unfold historyAttrs.
  now rewrite (get_merge_in _ (metaAttrs idDef) k (VType t)
                 (metaAttrs_NoDup idDef) Hk).
Qed.

(** X6: the attributes of the history model, whatever the source model and
    the options: a name that is no meta name is an attribute exactly when
    it is tracked and an attribute of the source model, and is defined as
    there without the auto-increment marker; the six meta attributes are
    always present; and [_id] is the only attribute marked auto-increment,
    also when a tracked attribute is named like a meta attribute. *)
Theorem history_attributes (model : Sequelize.model) (o : options) (idDef : obj) :
  (forall k, ~ In k metaNames ->
             get (historyAttrs model o idDef) k
             = option_map (fun attr => VObj (Lodash.omit attr "autoIncrement"))
                          (if in_dec string_dec k (track o)
                           then get (attributes model) k else None))
  /\ Forall (fun k => has (historyAttrs model o idDef) k = true) metaNames
  /\ (exists props, get (historyAttrs model o idDef) "_id" = Some (VObj props)
                    /\ get props "autoIncrement" = Some (VBool true))
  /\ (forall k def, get (historyAttrs model o idDef) k = Some def ->
                    member def "autoIncrement" <> VUndefined -> k = "_id").
Proof.
  split; [|split; [|split]].
  - intros k Hk. now apply historyAttrs_other.
  - unfold metaNames, has.
    repeat constructor;
      first [ erewrite historyAttrs_meta_obj by reflexivity; reflexivity
            | erewrite historyAttrs_meta_type by reflexivity; reflexivity ].
  - eexists. split; [apply historyAttrs_meta_obj; reflexivity|].
    rewrite (get_merge_in _ _ "autoIncrement" (VBool true));
      [reflexivity | | reflexivity].
    simpl. repeat constructor; rewrite list_elem_of_In; simpl; intuition discriminate.
  - intros k def Hget Hmark.
    destruct (in_dec string_dec k metaNames) as [Hin|Hout].
    + pose proof (trackedAttrs_unmarked model o k) as Hun.
      unfold metaNames in Hin. simpl in Hin.
      destruct Hin as [<-|[<-|[<-|[<-|[<-|[<-|[]]]]]]]; [reflexivity| | | | |];
        exfalso; apply Hmark.
      * erewrite historyAttrs_meta_obj in Hget by reflexivity.
        injection Hget as <-. cbn [member]. unfold prop.
        first [ rewrite get_merge_notin by reflexivity
              | rewrite !get_mergeProp_ne by discriminate ].
        destruct (get (trackedAttrs model o) "_sourceId") as [[]|];
          try reflexivity; try contradiction. now rewrite Hun.
      * erewrite historyAttrs_meta_obj in Hget by reflexivity.
        injection Hget as <-. cbn [member]. unfold prop.
        first [ rewrite get_merge_notin by reflexivity
              | rewrite !get_mergeProp_ne by discriminate ].
        destruct (get (trackedAttrs model o) "_revision") as [[]|];
          try reflexivity; try contradiction. now rewrite Hun.
      * rewrite (historyAttrs_meta_type model o idDef "_user" STRING eq_refl) in Hget.
        injection Hget as <-. reflexivity.
      * rewrite (historyAttrs_meta_type model o idDef "_date" DATE eq_refl) in Hget.
        injection Hget as <-. reflexivity.
      * rewrite (historyAttrs_meta_type model o idDef "_changes" (ARRAY STRING) eq_refl)
          in Hget.
        injection Hget as <-. reflexivity.
    + rewrite historyAttrs_other in Hget by assumption.
      match type of Hget with
      | context [option_map _ ?x] => destruct x as [attr|]
      end; [|discriminate].
      injection Hget as <-. exfalso. apply Hmark.
      cbn [member]. unfold prop. now rewrite get_omit_eq.
Qed.
End HistoryModel.

Section StoredRows.
Import Sequelize HistoryPlugin Database.

Lemma record_src_NoDup (o : options) (now : Z) (inst : instance) :
  NoDup (keys [("_sourceId", prop (dataValues inst) (idAttr o));
               ("_date", VDate now); ("_changes", changed inst)]).
Proof.
  simpl. repeat constructor; rewrite list_elem_of_In; simpl; intuition discriminate.
Qed.

Lemma record_sourceId (o : options) (now : Z) (inst : instance) :
  get (historyRecord o now inst) "_sourceId"
  = Lodash.mergeValue
      (get (Lodash.pick (_previousDataValues inst) (track o)) "_sourceId")
      (prop (dataValues inst) (idAttr o)).
Proof.
  unfold historyRecord.
  apply (get_merge_in _ _ "_sourceId" (prop (dataValues inst) (idAttr o))
           (record_src_NoDup o now inst) eq_refl).
Qed.

Lemma record_other (o : options) (now : Z) (inst : instance) k :
  k <> "_sourceId" -> k <> "_date" -> k <> "_changes" ->
  get (historyRecord o now inst) k
  = if in_dec string_dec k (track o)
    then get (_previousDataValues inst) k else None.
Proof.
  intros H1 H2 H3. unfold historyRecord. rewrite get_merge_notin.
  - apply get_pick.
  - cbn [get].
    destruct (String.eqb_spec "_sourceId" k); [congruence|].
    destruct (String.eqb_spec "_date" k); [congruence|].
    destruct (String.eqb_spec "_changes" k); [congruence|]. reflexivity.
Qed.

(** The row a successful write stores. *)
Lemma writeHistory_row hm sm (o : options) now inst (t t' : table) row :
  writeHistory hm sm o now inst t = (inr row, t') ->
  forall k, k <> "_revision" ->
            get row k = if has (def_attrs hm) k
                        then get (historyRecord o now inst) k else None.
Proof.
  intros Hw k Hk. unfold writeHistory, Orm.create in Hw.
  destruct (Orm.notNull _ _); [|discriminate Hw].
  unfold insert, insert_fn in Hw.
  destruct (next_revision t _ <=? INT_MAX); [|discriminate Hw].
  destruct (nullish _); [discriminate Hw|].
  injection Hw as <- _. rewrite get_set_ne by congruence.
  apply (get_filter_keys (has (def_attrs hm))).
Qed.

Lemma notNull_false (attrs values : obj) k (def : value) :
  In (k, def) attrs ->
  member def "allowNull" = VBool false ->
  nullish (prop values k) = true ->
  Orm.notNull attrs values = false.
Proof.
  intros Hin Hdef Hnull. destruct (Orm.notNull attrs values) eqn:E; [|reflexivity].
  unfold Orm.notNull in E. rewrite forallb_forall in E.
  specialize (E (k, def) Hin). cbn [fst snd] in E.
  rewrite Hdef, Hnull in E. discriminate E.
Qed.

(** In a tracked update the hook hands over to the writer. *)
Lemma afterUpdate_tracked hm sm (o : options) now inst (t : table) :
  (exists f, In f (changedKeys inst) /\ In f (track o)) ->
  afterUpdate hm sm o now inst t
  = (writeHistory hm sm o now inst >>= (fun row => ret (Some row))) t.
Proof.
  intros Hyes. unfold afterUpdate.
  destruct (trackedChanges o inst) eqn:E; [|reflexivity].
  apply trackedChanges_nil in E. contradiction.
Qed.

(** X7: a history row needs the source id.  For a history model made by
    the builder, when the instance's id value is [null] or [undefined]
    (and no tracked previous value is named [_sourceId]) the history write
    is refused with a validation error, by the [allowNull: false] of
    [_sourceId], and nothing is stored; an update that changed a tracked
    field then fails in its hook. *)
Theorem history_write_needs_source_id (model sm : Sequelize.model) (o : options)
  (idDef : obj) (hm : definition) (now : Z) (inst : instance) (t : table) :
  def_attrs hm = historyAttrs model o idDef ->
  nullish (prop (dataValues inst) (idAttr o)) = true ->
  get (Lodash.pick (_previousDataValues inst) (track o)) "_sourceId" = None ->
  writeHistory hm sm o now inst t = (inl ValidationError, t)
  /\ ((exists f, In f (changedKeys inst) /\ In f (track o)) ->
      afterUpdate hm sm o now inst t = (inl ValidationError, t)).
Proof.
  intros Hattrs Hnull Hnone.
  assert (Hw : writeHistory hm sm o now inst t = (inl ValidationError, t)).
  { unfold writeHistory, Orm.create.
    rewrite (notNull_false (def_attrs hm) _ "_sourceId"
               (VObj (Lodash.merge
                        (match get (trackedAttrs model o) "_sourceId" with
                         | Some (VObj d) => d
                         | _ => []
                         end)
                        [("type", prop idDef "type"); ("allowNull", VBool false);
                         ("unique", VStr "naturalId")]))).
    - reflexivity.
    - apply get_In. rewrite Hattrs. now apply historyAttrs_meta_obj.
    - cbn [member]. unfold prop.
      rewrite (get_merge_in _ _ "allowNull" (VBool false)); [reflexivity| |reflexivity].
      simpl. repeat constructor; rewrite list_elem_of_In; simpl;
        intuition discriminate.
    - unfold prop at 1.
      rewrite (get_filter_keys (has (def_attrs hm))).
      destruct (has (def_attrs hm) "_sourceId"); [|reflexivity].
      rewrite record_sourceId, Hnone.
      destruct (prop (dataValues inst) (idAttr o)); try discriminate Hnull;
        reflexivity. }
  split; [exact Hw|].
  intros Hyes. rewrite (afterUpdate_tracked hm sm o now inst t Hyes).
  unfold then_. now rewrite Hw.
Qed.

(** The sample model, an instance that was loaded without its [id]. *)
Lemma history_write_needs_source_id_witness :
  afterUpdate Samples.OrderHistory Samples.Order Samples.trackXY 100
    {| dataValues := [("x", VStr "new")];
       _previousDataValues := [("x", VStr "a")];
       changedKeys := ["x"] |} []
  = (inl ValidationError, []).
Proof.
  apply (proj2 (history_write_needs_source_id Samples.Order Samples.Order
                  Samples.trackXY
                  [("type", VType INTEGER); ("primaryKey", VBool true);
                   ("autoIncrement", VBool true)]
                  Samples.OrderHistory 100
                  {| dataValues := [("x", VStr "new")];
                     _previousDataValues := [("x", VStr "a")];
                     changedKeys := ["x"] |} []
                  eq_refl eq_refl eq_refl)).
  exists "x". simpl. auto.
Defined.

(** X8: what a stored history row holds.  For a history model made by the
    builder, every field of a row the hook stores is a meta field or a
    tracked attribute of the source model, and such a tracked field that
    is no meta name holds the value the instance had before the update: a
    field left out of [track] is never stored. *)
Theorem stored_fields_tracked_or_meta (model sm : Sequelize.model) (o : options)
  (idDef : obj) (hm : definition) (now : Z) (inst : instance)
  (t t' : table) (row : obj) :
  def_attrs hm = historyAttrs model o idDef ->
  afterUpdate hm sm o now inst t = (inr (Some row), t') ->
  forall k, In k (keys row) ->
            In k metaNames
            \/ (In k (track o)
                /\ In k (keys (attributes model))
                /\ get row k = get (_previousDataValues inst) k).
Proof.
  intros Hattrs Hrun k Hk.
  destruct (in_dec string_dec k metaNames) as [Hmeta|Hother]; [now left | right].
  assert (Hw : writeHistory hm sm o now inst t = (inr row, t')).
  { unfold afterUpdate in Hrun.
    destruct (0 <? Z.of_nat (length (trackedChanges o inst)));
      [|discriminate Hrun].
    unfold then_, ret in Hrun.
    destruct (writeHistory hm sm o now inst t) as [[e|row'] t''];
      [discriminate Hrun|]. now injection Hrun as -> ->. }
  assert (Hnames : k <> "_revision" /\ k <> "_sourceId" /\ k <> "_date"
                   /\ k <> "_changes").
  { unfold metaNames in Hother. simpl in Hother. intuition congruence. }
  destruct Hnames as (Hr & Hs & Hd & Hc).
  pose proof (writeHistory_row hm sm o now inst t t' row Hw k Hr) as Hrow.
  rewrite (record_other o now inst k Hs Hd Hc) in Hrow.
  assert (Hsome : get row k <> None).
  { intros Hnone. apply get_None_iff in Hnone. contradiction. }
  unfold has in Hrow. rewrite Hattrs, historyAttrs_other in Hrow by assumption.
  destruct (in_dec string_dec k (track o)) as [Htr|Hntr].
  - destruct (get (attributes model) k) as [attr|] eqn:Eattr.
    + split; [exact Htr|]. split; [|exact Hrow].
      now apply get_Some_In with (v := attr).
    + simpl in Hrow. contradiction.
  - simpl in Hrow. contradiction.
Qed.

(** The row the sample update stores: [x] is tracked and holds the previous
    value, [z] is not stored. *)
Lemma stored_fields_tracked_or_meta_witness :
  In "x" (track Samples.trackXY)
  /\ In "x" (keys (attributes Samples.Order))
  /\ get Samples.firstRevision "x"
     = get (_previousDataValues Samples.updatedXZ) "x".
Proof.
  destruct (stored_fields_tracked_or_meta Samples.Order Samples.Order
              Samples.trackXY
              [("type", VType INTEGER); ("primaryKey", VBool true);
               ("autoIncrement", VBool true)]
              Samples.OrderHistory 100 Samples.updatedXZ []
              [Samples.firstRevision] Samples.firstRevision
              eq_refl eq_refl "x") as [Hmeta|Htracked].
  - simpl. auto.
  - exfalso. simpl in Hmeta. intuition discriminate.
  - exact Htracked.
Defined.
End StoredRows.

(** ** Restore, again *)

Section RestoreAgain.
Import Sequelize HistoryPlugin Database.





Lemma store_row_again rows pk new :
  store_row (store_row rows pk new) pk new = store_row rows pk new.
Proof.
  induction rows as [|[k r] rows IH]; simpl; [reflexivity|].
  destruct (sql_eq k pk) eqn:E; simpl; rewrite E; [reflexivity|]. now rewrite IH.
Qed.


Lemma restore_missing hm sm (o : options) now this (w : world) :
  find_row (source w) (prop this "_sourceId") = None ->
  restore hm sm o now this w = (inl TypeError, w).
Proof.
  intros E. unfold restore, Orm.getSource, then_; cbn beta iota. now rewrite E.
Qed.

(** Restore on a source row that is there: the row is stored, then the hook
    runs and decides the outcome. *)
Lemma restore_found hm sm (o : options) now this (w : world) row :
  find_row (source w) (prop this "_sourceId") = Some row ->
  restore hm sm o now this w
  = match hook hm sm o now
            {| dataValues := Orm.assign sm row (Lodash.pick this (track o));
               _previousDataValues := row;
               changedKeys := Orm.changedBy sm row (Lodash.pick this (track o)) |}
            {| source := store_row (source w) (prop this "_sourceId")
                                   (Orm.assign sm row (Lodash.pick this (track o)));
               history := history w |} with
    | (inl e, w') => (inl e, w')
    | (inr _, w') =>
        (inr {| dataValues := Orm.assign sm row (Lodash.pick this (track o));
                _previousDataValues :=
                  Orm.assign sm row (Lodash.pick this (track o));
                changedKeys := [] |}, w')
    end.
Proof.
  intros E. unfold restore, Orm.getSource, then_; cbn beta iota. rewrite E.
  unfold Orm.update, then_, ret.
  match goal with
  | |- context [hook hm sm o now ?i ?w'] => destruct (hook hm sm o now i w') as [[e|u] w'']
  end; reflexivity.
Qed.






Lemma afterUpdate_shape hm sm (o : options) now i (t : table) :
  exists rows,
    snd (afterUpdate hm sm o now i t) = (t ++ rows)%list /\ (length rows <= 1)%nat.
Proof.
  unfold afterUpdate, then_, ret.
  destruct (0 <? Z.of_nat (length (trackedChanges o i))).
  - pose proof (writeHistory_shape hm sm o now i t) as Hw.
    destruct (writeHistory hm sm o now i t) as [[e|row] t']; simpl; subst t'.
    + exists []. rewrite app_nil_r. split; [reflexivity | simpl; lia].
    + exists [row]. split; [reflexivity | simpl; lia].
  - exists []. simpl. rewrite app_nil_r. split; [reflexivity | lia].
Qed.

(** X10: the history table only grows, and by one row at most: the hook,
    and so a restore, leave the rows that are there as they are and append
    at most one; the hook leaves the source table alone. *)
Theorem history_append_only (hm : definition) (sm : model) (o : options)
  (now : Z) (inst : instance) (this : obj) (w : world) :
  (exists rows,
      history (snd (hook hm sm o now inst w)) = (history w ++ rows)%list
      /\ (length rows <= 1)%nat
      /\ source (snd (hook hm sm o now inst w)) = source w)
  /\ exists rows,
       history (snd (restore hm sm o now this w)) = (history w ++ rows)%list
       /\ (length rows <= 1)%nat.
Proof.
  assert (Hhook : forall i w0,
             exists rows,
               history (snd (hook hm sm o now i w0)) = (history w0 ++ rows)%list
               /\ (length rows <= 1)%nat
               /\ source (snd (hook hm sm o now i w0)) = source w0).
  { intros i w0. destruct (afterUpdate_shape hm sm o now i (history w0))
      as (rows & Hrows & Hlen).
    exists rows. split; [|split; [exact Hlen | apply hook_source]].
    unfold hook, then_, on_history.
    destruct (afterUpdate hm sm o now i (history w0)) as [[e|r] t']; exact Hrows. }
  split; [apply Hhook|].
  destruct (find_row (source w) (prop this "_sourceId")) as [row|] eqn:E.
  - rewrite (restore_found hm sm o now this w row E).
    match goal with
    | |- context [hook hm sm o now ?i ?w'] =>
        destruct (Hhook i w') as (rows & Hh & Hlen & _);
        destruct (hook hm sm o now i w') as [[e|u] w'']
    end; exists rows; simpl in *; auto.
  - rewrite (restore_missing hm sm o now this w E).
    exists []. simpl. rewrite app_nil_r. split; [reflexivity | lia].
Qed.
End RestoreAgain.
